(** * Nidhogg: the node taint handler

    A shallow embedding of the handler of the nidhogg controller
    (package [nidhogg]) and the properties of its reconciliation pass.

    The repository holds two generations of the handler:
    - [SharedKey]: every taint has the key [taintKey] and names its
      daemonset in the taint value ("namespace/name"); the pass sweeps
      the owned taints it did not account for and stamps a
      first-time-ready annotation;
    - [KeyPerWorkload]: one taint key per daemonset
      ("nidhogg.uswitch.com/namespace.name"), no value, no sweep.

    Go data is kept as the code has it: a slice is [option (list _)]
    ([None] is the nil slice, which [reflect.DeepEqual] tells apart
    from an empty one), a map that may be nil is [option (gmap _ _)],
    a map used as a set is a [gset]. *)

From Stdlib Require Import String Ascii List Bool Permutation.
From stdpp Require Import base option list gmap strings sets.
Import ListNotations.
Local Open Scope string_scope.
Local Open Scope list_scope.

(** ** Go slices *)

Definition slice (A : Type) : Type := option (list A).

(** [for _, x := range s]: a nil slice has no elements. *)
Definition elems {A : Type} (s : slice A) : list A :=
  match s with
  | Some l => l
  | None => []
  end.

(** [append(s, x)]: never nil. *)
Definition append {A : Type} (s : slice A) (x : A) : slice A :=
  Some (elems s ++ [x]).

(** [strings.HasPrefix(s, p)] *)
Definition HasPrefix (s p : string) : bool := String.prefix p s.

(** ** The Kubernetes objects the handler reads and writes *)

Module corev1.

Definition TaintEffectNoSchedule : string := "NoSchedule".
Definition EventTypeNormal : string := "Normal".

Record Taint : Type := mkTaint {
  Key : string;
  Value : string;
  Effect : string;
  TimeAdded : option string
}.

Record ContainerStatus : Type := mkContainerStatus {
  Ready : bool
}.

(** [OwnerReferences] keeps the [Name] of each owner reference,
    [NodeName] is [Spec.NodeName], [ContainerStatuses] is
    [Status.ContainerStatuses]. *)
Record Pod : Type := mkPod {
  OwnerReferences : list string;
  NodeName : string;
  ContainerStatuses : list ContainerStatus
}.

(** [Taints] is [Spec.Taints]. A nil [Labels] map reads like an empty
    one and the handler never writes it; [Annotations] is written, so
    its nil case is kept. *)
Record Node : Type := mkNode {
  Name : string;
  UID : string;
  Labels : gmap string string;
  Annotations : option (gmap string string);
  Taints : slice Taint
}.

#[global] Instance Taint_eq_dec : EqDecision Taint.
Proof. solve_decision. Defined.

#[global] Instance Node_eq_dec : EqDecision Node.
Proof. solve_decision. Defined.

End corev1.

(** ** Label selectors *)

Module labels.

(** Modelled from the spec: the selector type of the Kubernetes
    [labels] package is not part of the repository. A selector built
    from a set of key/value pairs matches a label set when all
    key/value pairs in the selector are present and equal on the
    target's label set; the selector of an empty set therefore matches
    every label set. *)
Definition Selector : Type := gmap string string.

Definition SelectorFromSet (ls : gmap string string) : Selector := ls.

Definition Matches (sel : Selector) (ls : gmap string string) : bool :=
  forallb (fun kv => bool_decide (ls !! kv.1 = Some kv.2)) (map_to_list sel).

End labels.

(** ** What both generations of the handler share *)

Definition taintKey : string := "nidhogg.uswitch.com".

Inductive result (A : Type) : Type :=
  | Ok (a : A)
  | Err (e : string).
Arguments Ok {A} a.
Arguments Err {A} e.

(** Daemonset contains the name and namespace of a Daemonset *)
Record Daemonset : Type := mkDaemonset {
  Name : string;
  Namespace : string
}.

(** HandlerConfig contains the options for Nidhogg *)
Record HandlerConfig : Type := mkHandlerConfig {
  Daemonsets : list Daemonset;
  NodeSelector : gmap string string;
  NodeRejecter : gmap string string
}.

Record taintChanges : Type := mkTaintChanges {
  taintsAdded : list string;
  taintsRemoved : list string
}.

(** The API client embedded in the handler: [List] gives the pods of a
    namespace or fails; [UpdateError] is the fault, if any, with which
    the API server answers the update of a node. *)
Record Client : Type := mkClient {
  List : string -> result (list corev1.Pod);
  UpdateError : corev1.Node -> option string
}.

(** An event as handed to the recorder; the arguments of the message
    format are kept apart ([extra] holds TaintLess and FirstTimeReady). *)
Record Event : Type := mkEvent {
  object : corev1.Node;
  eventtype : string;
  reason : string;
  added : list string;
  removed : list string;
  extra : option (bool * string)
}.

(** The state outside the handler: the nodes the API server persists
    and the events recorded so far. *)
Record Cluster : Type := mkCluster {
  nodes : gmap string corev1.Node;
  events : list Event
}.

Definition Update (c : Client) (n : corev1.Node) (cl : Cluster)
  : Cluster * option string :=
  match UpdateError c n with
  | Some err => (cl, Some err)
  | None => (mkCluster (<[corev1.Name n := n]> (nodes cl)) (events cl), None)
  end.

Definition Eventf (ev : Event) (cl : Cluster) : Cluster :=
  mkCluster (nodes cl) (events cl ++ [ev]).

(** Handler performs the main business logic of the controller *)
Record Handler : Type := mkHandler {
  client : Client;
  config : HandlerConfig;
  nodeSelector : labels.Selector;
  nodeRejecter : labels.Selector
}.

(** NewHandler constructs a new instance of Handler *)
Definition NewHandler (c : Client) (conf : HandlerConfig) : Handler :=
  {| client := c;
     config := conf;
     nodeSelector := labels.SelectorFromSet (NodeSelector conf);
     nodeRejecter := labels.SelectorFromSet (NodeRejecter conf) |}.

(** How a call of the handler ends: it returns (with or without an
    error) or the Go runtime panics. *)
Inductive outcome : Type :=
  | Returned (err : option string)
  | Panicked.

(** The daemonsets [HandleNode] hands to [calculateTaints]: those of the
    configuration when the node matches the selector and not the
    rejecter, none otherwise. *)
Definition selectedDaemonsets (h : Handler) (instance : corev1.Node)
  : list Daemonset :=
  let labelSet := corev1.Labels instance in
  if labels.Matches (nodeSelector h) labelSet
     && negb (labels.Matches (nodeRejecter h) labelSet)
  then Daemonsets (config h)
  else [].

Definition ownedBy (ds : Daemonset) (nodeName : string) (pod : corev1.Pod) : bool :=
  existsb (fun owner =>
             String.eqb owner (Name ds)
             && String.eqb (corev1.NodeName pod) nodeName)
          (corev1.OwnerReferences pod).

Definition getDaemonsetPod (h : Handler) (nodeName : string) (ds : Daemonset)
  : result (option corev1.Pod) :=
  match List (client h) (Namespace ds) with
  | Err err => Err err
  | Ok pods => Ok (find (ownedBy ds nodeName) pods)
  end.

(** A taint the controller owns: its key has the prefix [taintKey]. *)
Definition owned (t : corev1.Taint) : bool :=
  HasPrefix (corev1.Key t) taintKey.

(** The taints of a slice that the controller does not own, in order. *)
Definition foreign (taints : slice corev1.Taint) : list corev1.Taint :=
  List.filter (fun t => negb (owned t)) (elems taints).

(** How many taints of a slice have the key [k]. *)
Definition taintCount (k : string) (taints : slice corev1.Taint) : nat :=
  length (List.filter (fun t => String.eqb (corev1.Key t) k) (elems taints)).

(** ** The handler with one shared taint key *)

Module SharedKey.

(** What the pass takes from the Go runtime: the clock, and the order
    in which [range] visits the keys of a map (each key once, in an
    order the language leaves open). *)
Record Runtime : Type := mkRuntime {
  Now : string;
  mapRange : gset string -> list string;
  mapRange_perm : forall s, Permutation (mapRange s) (elements s)
}.

Definition podReady (pod : corev1.Pod) : bool :=
  forallb corev1.Ready (corev1.ContainerStatuses pod).

Definition addTaint (taints : slice corev1.Taint) (taintValue : string)
  : slice corev1.Taint :=
  append taints
    {| corev1.Key := taintKey;
       corev1.Value := taintValue;
       corev1.Effect := corev1.TaintEffectNoSchedule;
       corev1.TimeAdded := None |}.

Definition removeTaint (taints : slice corev1.Taint) (taintValue : string)
  : slice corev1.Taint :=
  let newTaints :=
    List.filter
      (fun taint =>
         negb (String.eqb (corev1.Key taint) taintKey
               && String.eqb (corev1.Value taint) taintValue))
      (elems taints) in
  match newTaints with
  | [] => None
  | _ => Some newTaints
  end.

(** The first loop: the keys of the owned taints on the node. *)
Definition collectTaintsToRemove (taints : list corev1.Taint) : gset string :=
  fold_left
    (fun taintsToRemove taint =>
       if HasPrefix (corev1.Key taint) taintKey
       then {[ corev1.Key taint ]} ∪ taintsToRemove
       else taintsToRemove)
    taints ∅.

(** The state the loops of [calculateTaints] work on. *)
Record loopState : Type := mkLoopState {
  taintsToRemove : gset string;
  changes : taintChanges;
  nodeTaints : slice corev1.Taint
}.

(** The loop over the daemonsets. *)
Fixpoint daemonsetLoop (h : Handler) (nodeName : string)
    (daemonsets : list Daemonset) (st : loopState) : result loopState :=
  match daemonsets with
  | [] => Ok st
  | daemonset :: rest =>
      let taint := Namespace daemonset +:+ "/" +:+ Name daemonset in
      match getDaemonsetPod h nodeName daemonset with
      | Err err => Err ("error fetching pods: " +:+ err)
      | Ok pod =>
          if match pod with Some p => podReady p | None => false end
          then daemonsetLoop h nodeName rest st
          else if bool_decide (taint ∈ taintsToRemove st)
          then daemonsetLoop h nodeName rest
                 (mkLoopState (taintsToRemove st ∖ {[ taint ]})
                              (changes st) (nodeTaints st))
          else daemonsetLoop h nodeName rest
                 (mkLoopState (taintsToRemove st)
                    (mkTaintChanges (taintsAdded (changes st) ++ [taint])
                                    (taintsRemoved (changes st)))
                    (addTaint (nodeTaints st) taint))
      end
  end.

(** The loop over what is left in [taintsToRemove]. *)
Definition sweepLoop (keys : list string) (st : loopState) : loopState :=
  fold_left
    (fun st taint =>
       mkLoopState (taintsToRemove st)
         (mkTaintChanges (taintsAdded (changes st))
                         (taintsRemoved (changes st) ++ [taint]))
         (removeTaint (nodeTaints st) taint))
    keys st.

Definition calculateTaints (h : Handler) (rt : Runtime)
    (instance : corev1.Node) (daemonsets : list Daemonset)
  : result (corev1.Node * taintChanges) :=
  let st0 :=
    mkLoopState (collectTaintsToRemove (elems (corev1.Taints instance)))
                (mkTaintChanges [] [])
                (corev1.Taints instance) in
  match daemonsetLoop h (corev1.Name instance) daemonsets st0 with
  | Err err => Err err
  | Ok st1 =>
      let st2 := sweepLoop (mapRange rt (taintsToRemove st1)) st1 in
      Ok (corev1.mkNode (corev1.Name instance) (corev1.UID instance)
            (corev1.Labels instance) (corev1.Annotations instance)
            (nodeTaints st2),
          changes st2)
  end.

Definition firstTimeReadyKey : string := taintKey +:+ "/first-time-ready".

(** Lines 75 to 85 of [HandleNode]: [None] is the panic of an
    assignment to an entry of a nil map. *)
Definition stampFirstTimeReady (rt : Runtime) (nodeCopy : corev1.Node)
  : option (corev1.Node * bool * string) :=
  let taintLess := negb (existsb owned (elems (corev1.Taints nodeCopy))) in
  let lookup := corev1.Annotations nodeCopy ≫= (fun m => m !! firstTimeReadyKey) in
  match lookup with
  | Some firstTimeReady => Some (nodeCopy, taintLess, firstTimeReady)
  | None =>
      if taintLess
      then match corev1.Annotations nodeCopy with
           | None => None
           | Some m =>
               Some (corev1.mkNode (corev1.Name nodeCopy) (corev1.UID nodeCopy)
                       (corev1.Labels nodeCopy)
                       (Some (<[firstTimeReadyKey := Now rt]> m))
                       (corev1.Taints nodeCopy),
                     taintLess, Now rt)
           end
      else Some (nodeCopy, taintLess, "")
  end.

(** HandleNode works out what taints need to be applied to the node *)
Definition HandleNode (h : Handler) (rt : Runtime) (instance : corev1.Node)
    (cl : Cluster) : Cluster * outcome :=
  match calculateTaints h rt instance (selectedDaemonsets h instance) with
  | Err err =>
      (cl, Returned (Some ("error caluclating taints for node "
                           +:+ corev1.Name instance +:+ ": " +:+ err)))
  | Ok (nodeCopy0, taintChanges) =>
      match stampFirstTimeReady rt nodeCopy0 with
      | None => (cl, Panicked)
      | Some (nodeCopy, taintLess, firstTimeReady) =>
          if bool_decide (nodeCopy = instance)
          then (cl, Returned None)
          else
            match Update (client h) nodeCopy cl with
            | (cl1, Some err) => (cl1, Returned (Some err))
            | (cl1, None) =>
                let ev :=
                  mkEvent
                    (corev1.mkNode (corev1.Name nodeCopy) (corev1.Name nodeCopy)
                       (corev1.Labels nodeCopy) (corev1.Annotations nodeCopy)
                       (corev1.Taints nodeCopy))
                    corev1.EventTypeNormal "TaintsChanged"
                    (taintsAdded taintChanges) (taintsRemoved taintChanges)
                    (Some (taintLess, firstTimeReady)) in
                (Eventf ev cl1, Returned None)
            end
      end
  end.

End SharedKey.

(** ** The handler with one taint key per daemonset *)

Module KeyPerWorkload.

Definition podNotReady (pod : corev1.Pod) : bool :=
  existsb (fun status => negb (corev1.Ready status))
          (corev1.ContainerStatuses pod).

Definition taintPresent (node : corev1.Node) (taintName : string) : bool :=
  existsb (fun taint => String.eqb (corev1.Key taint) taintName)
          (elems (corev1.Taints node)).

Definition addTaint (taints : slice corev1.Taint) (taintName : string)
  : slice corev1.Taint :=
  append taints
    {| corev1.Key := taintName;
       corev1.Value := "";
       corev1.Effect := corev1.TaintEffectNoSchedule;
       corev1.TimeAdded := None |}.

Definition removeTaint (taints : slice corev1.Taint) (taintName : string)
  : slice corev1.Taint :=
  let newTaints :=
    List.filter
      (fun taint => negb (String.eqb (corev1.Key taint) taintName))
      (elems taints) in
  match newTaints with
  | [] => None
  | _ => Some newTaints
  end.

Definition withTaints (node : corev1.Node) (taints : slice corev1.Taint)
  : corev1.Node :=
  corev1.mkNode (corev1.Name node) (corev1.UID node) (corev1.Labels node)
                (corev1.Annotations node) taints.

(** The taint key of a daemonset. *)
Definition taintOf (daemonset : Daemonset) : string :=
  taintKey +:+ "/" +:+ Namespace daemonset +:+ "." +:+ Name daemonset.

(** The loop of [calculateTaints], on the node copy and the changes. *)
Fixpoint daemonsetLoop (h : Handler) (nodeName : string)
    (daemonsets : list Daemonset) (nodeCopy : corev1.Node)
    (changes : taintChanges) : result (corev1.Node * taintChanges) :=
  match daemonsets with
  | [] => Ok (nodeCopy, changes)
  | daemonset :: rest =>
      let taint := taintOf daemonset in
      match getDaemonsetPod h nodeName daemonset with
      | Err err => Err ("error fetching pods: " +:+ err)
      | Ok pod =>
          if match pod with Some p => podNotReady p | None => true end
          then
            if negb (taintPresent nodeCopy taint)
            then daemonsetLoop h nodeName rest
                   (withTaints nodeCopy (addTaint (corev1.Taints nodeCopy) taint))
                   (mkTaintChanges (taintsAdded changes ++ [taint])
                                   (taintsRemoved changes))
            else daemonsetLoop h nodeName rest nodeCopy changes
          else
            if taintPresent nodeCopy taint
            then daemonsetLoop h nodeName rest
                   (withTaints nodeCopy (removeTaint (corev1.Taints nodeCopy) taint))
                   (mkTaintChanges (taintsAdded changes)
                                   (taintsRemoved changes ++ [taint]))
            else daemonsetLoop h nodeName rest nodeCopy changes
      end
  end.

Definition calculateTaints (h : Handler) (instance : corev1.Node)
    (daemonsets : list Daemonset) : result (corev1.Node * taintChanges) :=
  daemonsetLoop h (corev1.Name instance) daemonsets instance
                (mkTaintChanges [] []).

(** HandleNode works out what taints need to be applied to the node *)
Definition HandleNode (h : Handler) (instance : corev1.Node) (cl : Cluster)
  : Cluster * outcome :=
  match calculateTaints h instance (selectedDaemonsets h instance) with
  | Err err =>
      (cl, Returned (Some ("error caluclating taints for node "
                           +:+ corev1.Name instance +:+ ": " +:+ err)))
  | Ok (nodeCopy, taintChanges) =>
      if bool_decide (nodeCopy = instance)
      then (cl, Returned None)
      else
        match Update (client h) nodeCopy cl with
        | (cl1, Some err) => (cl1, Returned (Some err))
        | (cl1, None) =>
            let ev :=
              mkEvent
                (corev1.mkNode (corev1.Name nodeCopy) (corev1.Name nodeCopy)
                   (corev1.Labels nodeCopy) (corev1.Annotations nodeCopy)
                   (corev1.Taints nodeCopy))
                corev1.EventTypeNormal "TaintsChanged"
                (taintsAdded taintChanges) (taintsRemoved taintChanges)
                None in
            (Eventf ev cl1, Returned None)
        end
  end.

End KeyPerWorkload.

(** ** Vocabulary of the properties *)

(** What the resolver says of a daemonset on a node: [Some true] when
    its pod is missing or has a container that is not ready, [Some false]
    when the pod exists with all containers ready, [None] when the list
    call fails. *)
Definition unready (h : Handler) (nodeName : string) (ds : Daemonset)
  : option bool :=
  match getDaemonsetPod h nodeName ds with
  | Err _ => None
  | Ok None => Some true
  | Ok (Some pod) => Some (KeyPerWorkload.podNotReady pod)
  end.

(** Daemonsets that share a taint key agree on readiness. Kubernetes
    names make the keys of distinct daemonsets distinct (a namespace has
    no dot), so this holds of every policy a cluster accepts. *)
Definition consistent (h : Handler) (nodeName : string)
    (daemonsets : list Daemonset) : Prop :=
  forall d1 d2,
    In d1 daemonsets -> In d2 daemonsets ->
    KeyPerWorkload.taintOf d1 = KeyPerWorkload.taintOf d2 ->
    unready h nodeName d1 = unready h nodeName d2.

(** One turn of the loop of [KeyPerWorkload.calculateTaints] on the node
    copy, for a daemonset whose pod is unready ([b = true]) or ready. *)
Definition turnNode (b : bool) (ds : Daemonset) (nodeCopy : corev1.Node)
  : corev1.Node :=
  let taint := KeyPerWorkload.taintOf ds in
  if b
  then if negb (KeyPerWorkload.taintPresent nodeCopy taint)
       then KeyPerWorkload.withTaints nodeCopy
              (KeyPerWorkload.addTaint (corev1.Taints nodeCopy) taint)
       else nodeCopy
  else if KeyPerWorkload.taintPresent nodeCopy taint
       then KeyPerWorkload.withTaints nodeCopy
              (KeyPerWorkload.removeTaint (corev1.Taints nodeCopy) taint)
       else nodeCopy.

(** The same turn on the change record. *)
Definition turnChanges (b : bool) (ds : Daemonset) (nodeCopy : corev1.Node)
    (changes : taintChanges) : taintChanges :=
  let taint := KeyPerWorkload.taintOf ds in
  if b
  then if negb (KeyPerWorkload.taintPresent nodeCopy taint)
       then mkTaintChanges (taintsAdded changes ++ [taint]) (taintsRemoved changes)
       else changes
  else if KeyPerWorkload.taintPresent nodeCopy taint
       then mkTaintChanges (taintsAdded changes) (taintsRemoved changes ++ [taint])
       else changes.

(** ** Concrete inputs *)

Definition fluentd : Daemonset := mkDaemonset "fluentd" "kube-system".

Definition roleWorker : gmap string string := {[ "role" := "worker" ]}.
Definition roleMaster : gmap string string := {[ "role" := "master" ]}.

(** A client that finds no pod in any namespace and writes every node. *)
Definition noPods : Client := mkClient (fun _ => Ok []) (fun _ => None).

(** A client that finds the fluentd pod of node-1, all containers ready. *)
Definition fluentdPod : corev1.Pod :=
  corev1.mkPod ["fluentd"] "node-1"
    [corev1.mkContainerStatus true; corev1.mkContainerStatus true].

Definition readyPods : Client :=
  mkClient (fun _ => Ok [fluentdPod]) (fun _ => None).

(** A client whose list call fails. *)
Definition failingPods : Client :=
  mkClient (fun _ => Err "connection refused") (fun _ => None).

Definition runtime0 : SharedKey.Runtime :=
  SharedKey.mkRuntime "2019-01-01T00:00:00Z" elements
    (fun s => Permutation_refl (elements s)).

Definition noSchedule (key value : string) : corev1.Taint :=
  corev1.mkTaint key value corev1.TaintEffectNoSchedule None.

(** A taint of another owner. *)
Definition dedicatedTaint : corev1.Taint := noSchedule "dedicated" "gpu".

Definition workerNode (annotations : option (gmap string string))
    (taints : slice corev1.Taint) : corev1.Node :=
  corev1.mkNode "node-1" "" roleWorker annotations taints.

Definition masterNode (taints : slice corev1.Taint) : corev1.Node :=
  corev1.mkNode "node-0" "" roleMaster (Some ∅) taints.

Definition emptyCluster : Cluster := mkCluster ∅ [].

(** The key of the taint of fluentd in the key-per-daemonset handler,
    and a worker node that carries that taint twice. *)
Definition fluentdKey : string := "nidhogg.uswitch.com/kube-system.fluentd".

Definition twiceTainted : corev1.Node :=
  workerNode (Some ∅) (Some [noSchedule fluentdKey ""; noSchedule fluentdKey ""]).

(** Scenario A as the specification words it: the exclude selector is
    empty. *)
Definition scenarioA : Handler :=
  NewHandler noPods (mkHandlerConfig [fluentd] roleWorker ∅).

(** Handlers for the worker nodes, masters excluded. *)
Definition workersOf (c : Client) (daemonsets : list Daemonset) : Handler :=
  NewHandler c (mkHandlerConfig daemonsets roleWorker roleMaster).

(** ** Vocabulary of the further properties *)

(** The taint value the shared-key handler derives from a daemonset. *)
Definition valueOf (ds : Daemonset) : string :=
  Namespace ds +:+ "/" +:+ Name ds.

(** The daemonsets of a list whose pod on the node is missing or
    unready, in the order of the list. *)
Definition unreadyOnes (h : Handler) (nodeName : string)
    (daemonsets : list Daemonset) : list Daemonset :=
  List.filter
    (fun ds => match unready h nodeName ds with
               | Some true => true
               | _ => false
               end)
    daemonsets.

(** [None] for no taint left, as [removeTaint] returns it. *)
Definition nilIfEmpty (taints : list corev1.Taint) : slice corev1.Taint :=
  match taints with
  | [] => None
  | _ => Some taints
  end.

(** A second pod of fluentd on node-1, with a container that is not
    ready, and a pod of another node. *)
Definition fluentdPodUnready : corev1.Pod :=
  corev1.mkPod ["fluentd"] "node-1"
    [corev1.mkContainerStatus true; corev1.mkContainerStatus false].

Definition fluentdPodElsewhere : corev1.Pod :=
  corev1.mkPod ["fluentd"] "node-2" [corev1.mkContainerStatus false].

Definition kiam : Daemonset := mkDaemonset "kiam" "kube-system".


(** What the sweep of the shared-key handler removes when it ranges
    over [keys]: the taints with the shared key whose value is one of
    them. *)
Definition swept (keys : list string) (t : corev1.Taint) : bool :=
  String.eqb (corev1.Key t) taintKey
  && existsb (String.eqb (corev1.Value t)) keys.

(** The first daemonset of the list whose list call fails, [msg] being
    the error the loop of [calculateTaints] makes of it. *)
Definition firstFailure (h : Handler) (daemonsets : list Daemonset)
    (msg : string) : Prop :=
  exists before d after e,
    daemonsets = before ++ d :: after
    /\ (forall d', In d' before ->
          exists pods, List (client h) (Namespace d') = Ok pods)
    /\ List (client h) (Namespace d) = Err e
    /\ msg = "error fetching pods: " +:+ e.

(** A runtime that ranges over a map in the reverse of the order of
    [runtime0]. *)
Definition runtime1 : SharedKey.Runtime :=
  SharedKey.mkRuntime "2019-01-01T00:00:00Z" (fun s => rev (elements s))
    (fun s => Permutation_sym (Permutation_rev (elements s))).

(** One turn of the daemonset loop of [SharedKey.calculateTaints], for
    a daemonset whose pod is unready ([b = true]) or ready. *)
Definition sharedTurn (b : bool) (ds : Daemonset) (st : SharedKey.loopState)
  : SharedKey.loopState :=
  if b
  then if bool_decide (valueOf ds ∈ SharedKey.taintsToRemove st)
       then SharedKey.mkLoopState
              (SharedKey.taintsToRemove st ∖ {[ valueOf ds ]})
              (SharedKey.changes st) (SharedKey.nodeTaints st)
       else SharedKey.mkLoopState
              (SharedKey.taintsToRemove st)
              (mkTaintChanges (taintsAdded (SharedKey.changes st) ++ [valueOf ds])
                              (taintsRemoved (SharedKey.changes st)))
              (SharedKey.addTaint (SharedKey.nodeTaints st) (valueOf ds))
  else st.

(** * Properties *)

(** ** Strings, slices and filters *)

Lemma prefix_append (p s : string) : String.prefix p (p +:+ s) = true.
Proof.
  induction p as [|a p IH]; simpl.
  - destruct s; reflexivity.
  - destruct (ascii_dec a a) as [_|Hne]; [exact IH|congruence].
Qed.

Lemma HasPrefix_taintKey : HasPrefix taintKey taintKey = true.
Proof. reflexivity. Qed.

Lemma owned_of_key (t : corev1.Taint) :
  String.eqb (corev1.Key t) taintKey = true -> owned t = true.
Proof.
  intros H. apply String.eqb_eq in H. unfold owned. rewrite H.
  exact HasPrefix_taintKey.
Qed.

Lemma filter_filter_weaker {A : Type} (p q : A -> bool) (l : list A) :
  (forall x, q x = true -> p x = true) ->
  List.filter q (List.filter p l) = List.filter q l.
Proof.
  intros Hqp. induction l as [|x l IH]; simpl; [reflexivity|].
  destruct (p x) eqn:Hp; simpl.
  - destruct (q x); [f_equal|]; exact IH.
  - destruct (q x) eqn:Hq; [|exact IH].
    apply Hqp in Hq. congruence.
Qed.

(** ** The shared-key handler: what its helpers do to a taint list *)

Lemma SharedKey_elems_removeTaint (taints : slice corev1.Taint) (v : string) :
  elems (SharedKey.removeTaint taints v) =
  List.filter
    (fun taint => negb (String.eqb (corev1.Key taint) taintKey
                        && String.eqb (corev1.Value taint) v))
    (elems taints).
Proof.
  unfold SharedKey.removeTaint.
  destruct (List.filter _ (elems taints)); reflexivity.
Qed.

Lemma SharedKey_foreign_addTaint (taints : slice corev1.Taint) (v : string) :
  foreign (SharedKey.addTaint taints v) = foreign taints.
Proof.
  unfold foreign, SharedKey.addTaint, append. simpl elems.
  rewrite List.filter_app. simpl. apply app_nil_r.
Qed.

Lemma SharedKey_foreign_removeTaint (taints : slice corev1.Taint) (v : string) :
  foreign (SharedKey.removeTaint taints v) = foreign taints.
Proof.
  unfold foreign. rewrite SharedKey_elems_removeTaint.
  apply filter_filter_weaker. intros t Ht.
  destruct (String.eqb (corev1.Key t) taintKey) eqn:Hk; [|reflexivity].
  apply owned_of_key in Hk. rewrite Hk in Ht. discriminate.
Qed.

Lemma SharedKey_daemonsetLoop_foreign (h : Handler) (nodeName : string)
    (daemonsets : list Daemonset) :
  forall st st',
    SharedKey.daemonsetLoop h nodeName daemonsets st = Ok st' ->
    foreign (SharedKey.nodeTaints st') = foreign (SharedKey.nodeTaints st).
Proof.
  induction daemonsets as [|ds rest IH]; intros st st' H; simpl in H.
  - congruence.
  - destruct (getDaemonsetPod h nodeName ds) as [pod|err]; [|discriminate].
    destruct (match pod with Some p => SharedKey.podReady p | None => false end).
    + exact (IH _ _ H).
    + destruct (bool_decide _).
      * exact (IH _ _ H).
      * rewrite (IH _ _ H). simpl. apply SharedKey_foreign_addTaint.
Qed.

Lemma SharedKey_sweepLoop_foreign (keys : list string) :
  forall st,
    foreign (SharedKey.nodeTaints (SharedKey.sweepLoop keys st)) =
    foreign (SharedKey.nodeTaints st).
Proof.
  unfold SharedKey.sweepLoop.
  induction keys as [|k keys IH]; intros st; simpl; [reflexivity|].
  rewrite IH. simpl. apply SharedKey_foreign_removeTaint.
Qed.

Lemma SharedKey_calculateTaints_inv (h : Handler) (rt : SharedKey.Runtime)
    (instance : corev1.Node) (daemonsets : list Daemonset)
    (nodeCopy : corev1.Node) (changes : taintChanges) :
  SharedKey.calculateTaints h rt instance daemonsets = Ok (nodeCopy, changes) ->
  exists st1,
    SharedKey.daemonsetLoop h (corev1.Name instance) daemonsets
      (SharedKey.mkLoopState
         (SharedKey.collectTaintsToRemove (elems (corev1.Taints instance)))
         (mkTaintChanges [] []) (corev1.Taints instance)) = Ok st1
    /\ nodeCopy =
       corev1.mkNode (corev1.Name instance) (corev1.UID instance)
         (corev1.Labels instance) (corev1.Annotations instance)
         (SharedKey.nodeTaints
            (SharedKey.sweepLoop (SharedKey.mapRange rt (SharedKey.taintsToRemove st1)) st1))
    /\ changes =
       SharedKey.changes
         (SharedKey.sweepLoop (SharedKey.mapRange rt (SharedKey.taintsToRemove st1)) st1).
Proof.
  unfold SharedKey.calculateTaints. intros H.
  destruct (SharedKey.daemonsetLoop _ _ _ _) as [st1|err]; [|discriminate].
  exists st1. inversion H. auto.
Qed.

(** ** The key-per-daemonset handler: what its helpers do to a taint list *)

Lemma KeyPerWorkload_owned_taintOf (ds : Daemonset) :
  HasPrefix (KeyPerWorkload.taintOf ds) taintKey = true.
Proof. unfold KeyPerWorkload.taintOf, HasPrefix. apply prefix_append. Qed.

Lemma KeyPerWorkload_elems_removeTaint (taints : slice corev1.Taint) (k : string) :
  elems (KeyPerWorkload.removeTaint taints k) =
  List.filter (fun taint => negb (String.eqb (corev1.Key taint) k)) (elems taints).
Proof.
  unfold KeyPerWorkload.removeTaint.
  destruct (List.filter _ (elems taints)); reflexivity.
Qed.

Lemma KeyPerWorkload_foreign_addTaint (taints : slice corev1.Taint) (ds : Daemonset) :
  foreign (KeyPerWorkload.addTaint taints (KeyPerWorkload.taintOf ds)) = foreign taints.
Proof.
  unfold foreign, KeyPerWorkload.addTaint, append. cbn [elems].
  rewrite List.filter_app. cbn [List.filter].
  replace (owned _) with true; [apply app_nil_r|].
  symmetry. apply KeyPerWorkload_owned_taintOf.
Qed.

Lemma KeyPerWorkload_foreign_removeTaint (taints : slice corev1.Taint) (ds : Daemonset) :
  foreign (KeyPerWorkload.removeTaint taints (KeyPerWorkload.taintOf ds)) = foreign taints.
Proof.
  unfold foreign. rewrite KeyPerWorkload_elems_removeTaint.
  apply filter_filter_weaker. intros t Ht.
  destruct (String.eqb (corev1.Key t) (KeyPerWorkload.taintOf ds)) eqn:Hk; [|reflexivity].
  apply String.eqb_eq in Hk. unfold owned in Ht. rewrite Hk in Ht.
  rewrite KeyPerWorkload_owned_taintOf in Ht. discriminate.
Qed.

Lemma KeyPerWorkload_daemonsetLoop_foreign (h : Handler) (nodeName : string)
    (daemonsets : list Daemonset) :
  forall nodeCopy changes nodeCopy' changes',
    KeyPerWorkload.daemonsetLoop h nodeName daemonsets nodeCopy changes
      = Ok (nodeCopy', changes') ->
    foreign (corev1.Taints nodeCopy') = foreign (corev1.Taints nodeCopy).
Proof.
  induction daemonsets as [|ds rest IH]; intros n c n' c' H; simpl in H.
  - congruence.
  - destruct (getDaemonsetPod h nodeName ds) as [pod|err]; [|discriminate].
    destruct (match pod with Some p => KeyPerWorkload.podNotReady p | None => true end).
    + destruct (KeyPerWorkload.taintPresent n _); simpl in H.
      * exact (IH _ _ _ _ H).
      * rewrite (IH _ _ _ _ H). simpl. apply KeyPerWorkload_foreign_addTaint.
    + destruct (KeyPerWorkload.taintPresent n _); simpl in H.
      * rewrite (IH _ _ _ _ H). simpl. apply KeyPerWorkload_foreign_removeTaint.
      * exact (IH _ _ _ _ H).
Qed.

(** ** Taints of other owners *)

(** C6. The pass neither adds, removes nor reorders the taints whose
    key lacks the prefix nidhogg.uswitch.com: the non-owned taints of the
    returned node are those of the input node, in the same order. This
    holds for the shared-key handler and for the key-per-daemonset one,
    for whatever daemonsets the pass is run with. *)
Theorem foreign_taints_untouched (h : Handler) (rt : SharedKey.Runtime)
    (instance : corev1.Node) (daemonsets : list Daemonset)
    (nodeCopy : corev1.Node) (changes : taintChanges) :
  (SharedKey.calculateTaints h rt instance daemonsets = Ok (nodeCopy, changes) ->
   foreign (corev1.Taints nodeCopy) = foreign (corev1.Taints instance))
  /\
  (KeyPerWorkload.calculateTaints h instance daemonsets = Ok (nodeCopy, changes) ->
   foreign (corev1.Taints nodeCopy) = foreign (corev1.Taints instance)).
Proof.
  split; intros H.
  - apply SharedKey_calculateTaints_inv in H as (st1 & Hloop & -> & _).
    simpl. rewrite SharedKey_sweepLoop_foreign.
    apply (SharedKey_daemonsetLoop_foreign _ _ _ _ _ Hloop).
  - exact (KeyPerWorkload_daemonsetLoop_foreign _ _ _ _ _ _ _ H).
Qed.

Lemma foreign_taints_untouched_witness :
  foreign (Some [dedicatedTaint; noSchedule taintKey "kube-system/fluentd"])
  = [dedicatedTaint]
  /\ foreign (Some [dedicatedTaint]) = [dedicatedTaint].
Proof.
  split.
  - apply (proj1 (foreign_taints_untouched (workersOf noPods [fluentd]) runtime0
                    (workerNode None (Some [dedicatedTaint])) [fluentd]
                    (workerNode None
                       (Some [dedicatedTaint; noSchedule taintKey "kube-system/fluentd"]))
                    (mkTaintChanges ["kube-system/fluentd"] []))).
    vm_compute. reflexivity.
  - apply (proj2 (foreign_taints_untouched (workersOf readyPods [fluentd]) runtime0
                    (workerNode None
                       (Some [dedicatedTaint;
                              noSchedule "nidhogg.uswitch.com/kube-system.fluentd" ""]))
                    [fluentd]
                    (workerNode None (Some [dedicatedTaint]))
                    (mkTaintChanges [] ["nidhogg.uswitch.com/kube-system.fluentd"]))).
    vm_compute. reflexivity.
Defined.

(** ** Failing pod lookups *)

Lemma getDaemonsetPod_Err (h : Handler) (nodeName : string) (ds : Daemonset)
    (e : string) :
  List (client h) (Namespace ds) = Err e ->
  getDaemonsetPod h nodeName ds = Err e.
Proof. unfold getDaemonsetPod. intros ->. reflexivity. Qed.

Lemma SharedKey_daemonsetLoop_Err (h : Handler) (nodeName : string)
    (ds : Daemonset) (e : string) (daemonsets : list Daemonset) :
  In ds daemonsets ->
  List (client h) (Namespace ds) = Err e ->
  forall st, exists msg, SharedKey.daemonsetLoop h nodeName daemonsets st = Err msg.
Proof.
  intros Hin Hlist.
  induction daemonsets as [|d rest IH]; [destruct Hin|].
  intros st. simpl.
  destruct (getDaemonsetPod h nodeName d) as [pod|err] eqn:Hpod; [|eauto].
  destruct Hin as [->|Hin].
  { rewrite (getDaemonsetPod_Err _ _ _ _ Hlist) in Hpod. discriminate. }
  destruct (match pod with Some p => SharedKey.podReady p | None => false end);
    [|destruct (bool_decide _)]; apply (IH Hin).
Qed.

Lemma KeyPerWorkload_daemonsetLoop_Err (h : Handler) (nodeName : string)
    (ds : Daemonset) (e : string) (daemonsets : list Daemonset) :
  In ds daemonsets ->
  List (client h) (Namespace ds) = Err e ->
  forall nodeCopy changes,
  exists msg,
    KeyPerWorkload.daemonsetLoop h nodeName daemonsets nodeCopy changes = Err msg.
Proof.
  intros Hin Hlist.
  induction daemonsets as [|d rest IH]; [destruct Hin|].
  intros n c. simpl.
  destruct (getDaemonsetPod h nodeName d) as [pod|err] eqn:Hpod; [|eauto].
  destruct Hin as [->|Hin].
  { rewrite (getDaemonsetPod_Err _ _ _ _ Hlist) in Hpod. discriminate. }
  destruct (match pod with Some p => KeyPerWorkload.podNotReady p | None => true end);
    destruct (KeyPerWorkload.taintPresent n _); simpl; apply (IH Hin).
Qed.

(** C7. When the list call fails for the namespace of a daemonset the
    pass looks up (one of those handed to calculateTaints for this
    node), HandleNode returns an error and leaves the cluster as it was:
    no node is written and no event recorded. This holds for both
    generations of the handler. *)
Theorem lookup_failure_aborts_pass (h : Handler) (rt : SharedKey.Runtime)
    (instance : corev1.Node) (cl : Cluster) (ds : Daemonset) (e : string) :
  In ds (selectedDaemonsets h instance) ->
  List (client h) (Namespace ds) = Err e ->
  (exists msg, SharedKey.HandleNode h rt instance cl = (cl, Returned (Some msg)))
  /\
  (exists msg, KeyPerWorkload.HandleNode h instance cl = (cl, Returned (Some msg))).
Proof.
  intros Hin Hlist. split.
  - unfold SharedKey.HandleNode, SharedKey.calculateTaints.
    destruct (SharedKey_daemonsetLoop_Err h (corev1.Name instance) ds e _ Hin Hlist
                (SharedKey.mkLoopState
                   (SharedKey.collectTaintsToRemove (elems (corev1.Taints instance)))
                   (mkTaintChanges [] []) (corev1.Taints instance)))
      as [msg ->].
    eauto.
  - unfold KeyPerWorkload.HandleNode, KeyPerWorkload.calculateTaints.
    destruct (KeyPerWorkload_daemonsetLoop_Err h (corev1.Name instance) ds e _ Hin Hlist
                instance (mkTaintChanges [] []))
      as [msg ->].
    eauto.
Qed.

Lemma lookup_failure_aborts_pass_witness :
  (exists msg,
     SharedKey.HandleNode (workersOf failingPods [fluentd]) runtime0
       (workerNode (Some ∅) None) emptyCluster
     = (emptyCluster, Returned (Some msg)))
  /\
  (exists msg,
     KeyPerWorkload.HandleNode (workersOf failingPods [fluentd])
       (workerNode (Some ∅) None) emptyCluster
     = (emptyCluster, Returned (Some msg))).
Proof.
  apply (lookup_failure_aborts_pass (workersOf failingPods [fluentd]) runtime0
           (workerNode (Some ∅) None) emptyCluster fluentd "connection refused").
  - vm_compute. left. reflexivity.
  - reflexivity.
Defined.

(** ** The first-time-ready annotation *)

Lemma SharedKey_calculateTaints_Annotations (h : Handler) (rt : SharedKey.Runtime)
    (instance : corev1.Node) (daemonsets : list Daemonset)
    (nodeCopy : corev1.Node) (changes : taintChanges) :
  SharedKey.calculateTaints h rt instance daemonsets = Ok (nodeCopy, changes) ->
  corev1.Annotations nodeCopy = corev1.Annotations instance.
Proof.
  intros H. apply SharedKey_calculateTaints_inv in H as (st1 & _ & -> & _).
  reflexivity.
Qed.

Lemma stampFirstTimeReady_None (rt : SharedKey.Runtime) (nodeCopy : corev1.Node) :
  SharedKey.stampFirstTimeReady rt nodeCopy = None <->
  corev1.Annotations nodeCopy = None
  /\ existsb owned (elems (corev1.Taints nodeCopy)) = false.
Proof.
  unfold SharedKey.stampFirstTimeReady.
  destruct (corev1.Annotations nodeCopy) as [m|]; simpl.
  - split; [|intros [? _]; discriminate].
    destruct (m !! SharedKey.firstTimeReadyKey); [discriminate|].
    destruct (negb _); discriminate.
  - destruct (existsb owned _); simpl; split; try discriminate; auto.
    intros [_ ?]; discriminate.
Qed.

(** C10. HandleNode of the shared-key handler is not total. It panics
    exactly when the taints were calculated, the annotations map of the
    node is nil and no taint with the nidhogg.uswitch.com prefix is left
    after the calculation: it then assigns the first-time-ready entry
    into the nil map. With a non-nil annotations map, or with an owned
    taint left, it returns. *)
Theorem HandleNode_panics_iff (h : Handler) (rt : SharedKey.Runtime)
    (instance : corev1.Node) (cl : Cluster) :
  snd (SharedKey.HandleNode h rt instance cl) = Panicked <->
  exists nodeCopy changes,
    SharedKey.calculateTaints h rt instance (selectedDaemonsets h instance)
      = Ok (nodeCopy, changes)
    /\ corev1.Annotations instance = None
    /\ existsb owned (elems (corev1.Taints nodeCopy)) = false.
Proof.
  unfold SharedKey.HandleNode.
  destruct (SharedKey.calculateTaints h rt instance (selectedDaemonsets h instance))
    as [[nodeCopy changes]|err] eqn:Hcalc.
  - pose proof (SharedKey_calculateTaints_Annotations _ _ _ _ _ _ Hcalc) as Hann.
    destruct (SharedKey.stampFirstTimeReady rt nodeCopy) as [[[n tl] ftr]|] eqn:Hstamp.
    + split.
      * destruct (bool_decide (n = instance)); [discriminate|].
        unfold Update. destruct (UpdateError (client h) n); discriminate.
      * intros (n' & c' & Heq & Hnil & Hfree). inversion Heq; subst n' c'.
        assert (SharedKey.stampFirstTimeReady rt nodeCopy = None) as Hnone.
        { apply stampFirstTimeReady_None. rewrite Hann. auto. }
        congruence.
    + apply stampFirstTimeReady_None in Hstamp as [Hnil Hfree].
      split; [|reflexivity]. intros _.
      exists nodeCopy, changes. rewrite <- Hann. auto.
  - split; [discriminate|].
    intros (n' & c' & Heq & _). discriminate.
Qed.

Lemma HandleNode_panics_iff_witness :
  snd (SharedKey.HandleNode (workersOf readyPods [fluentd]) runtime0
         (workerNode None None) emptyCluster) = Panicked
  /\ snd (SharedKey.HandleNode (workersOf readyPods [fluentd]) runtime0
            (workerNode (Some ∅) None) emptyCluster) <> Panicked.
Proof.
  split.
  - apply (proj2 (HandleNode_panics_iff (workersOf readyPods [fluentd]) runtime0
                    (workerNode None None) emptyCluster)).
    exists (workerNode None None), (mkTaintChanges [] []).
    split; [vm_compute; reflexivity|]. split; reflexivity.
  - intros Hp.
    apply (proj1 (HandleNode_panics_iff (workersOf readyPods [fluentd]) runtime0
                    (workerNode (Some ∅) None) emptyCluster)) in Hp.
    destruct Hp as (n & c & _ & Hnil & _). discriminate.
Defined.

(** ** Nodes out of scope *)

Lemma selectedDaemonsets_out (h : Handler) (instance : corev1.Node) :
  labels.Matches (nodeSelector h) (corev1.Labels instance) = false
  \/ labels.Matches (nodeRejecter h) (corev1.Labels instance) = true ->
  selectedDaemonsets h instance = [].
Proof.
  unfold selectedDaemonsets. intros [-> | ->]; [reflexivity|].
  rewrite andb_false_r. reflexivity.
Qed.

Lemma selectedDaemonsets_in (h : Handler) (instance : corev1.Node) :
  labels.Matches (nodeSelector h) (corev1.Labels instance) = true ->
  labels.Matches (nodeRejecter h) (corev1.Labels instance) = false ->
  selectedDaemonsets h instance = Daemonsets (config h).
Proof. unfold selectedDaemonsets. intros -> ->. reflexivity. Qed.

Lemma filter_sublist_of {A : Type} (p : A -> bool) (l : list A) :
  sublist (List.filter p l) l.
Proof.
  induction l as [|x l IH]; simpl; [constructor|].
  destruct (p x); constructor; exact IH.
Qed.

Lemma SharedKey_sweepLoop_taintsAdded (keys : list string) :
  forall st,
    taintsAdded (SharedKey.changes (SharedKey.sweepLoop keys st))
    = taintsAdded (SharedKey.changes st).
Proof.
  unfold SharedKey.sweepLoop.
  induction keys as [|k keys IH]; intros st; simpl; [reflexivity|].
  rewrite IH. reflexivity.
Qed.

Lemma SharedKey_sweepLoop_sublist (keys : list string) :
  forall st,
    sublist (elems (SharedKey.nodeTaints (SharedKey.sweepLoop keys st)))
            (elems (SharedKey.nodeTaints st)).
Proof.
  unfold SharedKey.sweepLoop.
  induction keys as [|k keys IH]; intros st; simpl; [reflexivity|].
  etrans; [apply IH|]. simpl.
  rewrite SharedKey_elems_removeTaint. apply filter_sublist_of.
Qed.

(** C5, as the code has it. For a node out of scope (its labels fail
    the selector or match the rejecter) the pass adds no taint. The
    shared-key handler returns an empty added list and a taint list that
    is a sublist of the input's, with every non-owned taint kept; the
    key-per-daemonset handler returns the node exactly as it was, with
    an empty change record. *)
Theorem out_of_scope_adds_nothing (h : Handler) (rt : SharedKey.Runtime)
    (instance : corev1.Node) :
  labels.Matches (nodeSelector h) (corev1.Labels instance) = false
  \/ labels.Matches (nodeRejecter h) (corev1.Labels instance) = true ->
  (exists nodeCopy changes,
     SharedKey.calculateTaints h rt instance (selectedDaemonsets h instance)
       = Ok (nodeCopy, changes)
     /\ taintsAdded changes = []
     /\ sublist (elems (corev1.Taints nodeCopy)) (elems (corev1.Taints instance))
     /\ foreign (corev1.Taints nodeCopy) = foreign (corev1.Taints instance))
  /\
  KeyPerWorkload.calculateTaints h instance (selectedDaemonsets h instance)
    = Ok (instance, mkTaintChanges [] []).
Proof.
  intros Hout. rewrite (selectedDaemonsets_out _ _ Hout). split.
  - unfold SharedKey.calculateTaints. simpl SharedKey.daemonsetLoop. cbv iota beta.
    eexists _, _. split; [reflexivity|]. cbn [corev1.Taints].
    split; [|split].
    + apply SharedKey_sweepLoop_taintsAdded.
    + apply SharedKey_sweepLoop_sublist.
    + apply SharedKey_sweepLoop_foreign.
  - reflexivity.
Qed.

Lemma out_of_scope_adds_nothing_witness :
  (exists nodeCopy changes,
     SharedKey.calculateTaints (workersOf noPods [fluentd]) runtime0
       (masterNode (Some [dedicatedTaint]))
       (selectedDaemonsets (workersOf noPods [fluentd])
          (masterNode (Some [dedicatedTaint])))
       = Ok (nodeCopy, changes)
     /\ taintsAdded changes = []
     /\ sublist (elems (corev1.Taints nodeCopy)) [dedicatedTaint]
     /\ foreign (corev1.Taints nodeCopy) = [dedicatedTaint])
  /\
  KeyPerWorkload.calculateTaints (workersOf noPods [fluentd])
    (masterNode (Some [dedicatedTaint]))
    (selectedDaemonsets (workersOf noPods [fluentd])
       (masterNode (Some [dedicatedTaint])))
    = Ok (masterNode (Some [dedicatedTaint]), mkTaintChanges [] []).
Proof.
  apply (out_of_scope_adds_nothing (workersOf noPods [fluentd]) runtime0
           (masterNode (Some [dedicatedTaint]))).
  left. vm_compute. reflexivity.
Defined.

(** C5 as stated fails on the shared-key handler: the node below is out
    of scope and carries one owned taint, whose value equals its key;
    the pass sweeps it and returns a nil taint list. *)
Lemma out_of_scope_taints_change :
  selectedDaemonsets (workersOf noPods [fluentd])
    (masterNode (Some [noSchedule taintKey taintKey])) = []
  /\ SharedKey.calculateTaints (workersOf noPods [fluentd]) runtime0
       (masterNode (Some [noSchedule taintKey taintKey]))
       (selectedDaemonsets (workersOf noPods [fluentd])
          (masterNode (Some [noSchedule taintKey taintKey])))
     = Ok (masterNode None, mkTaintChanges [] [taintKey])
  /\ corev1.Taints (masterNode None)
     <> corev1.Taints (masterNode (Some [noSchedule taintKey taintKey])).
Proof.
  split; [vm_compute; reflexivity|].
  split; [vm_compute; reflexivity|].
  discriminate.
Qed.

(** ** Scenario A *)

Lemma mapRange_short (rt : SharedKey.Runtime) (s : gset string) (l : list string) :
  elements s = l -> length l <= 1 -> SharedKey.mapRange rt s = l.
Proof.
  intros Hl Hlen. pose proof (SharedKey.mapRange_perm rt s) as Hp.
  rewrite Hl in Hp. destruct l as [|x [|y l]]; simpl in Hlen.
  - apply Permutation_sym, Permutation_nil in Hp. exact Hp.
  - apply Permutation_sym, Permutation_length_1_inv in Hp. exact Hp.
  - lia.
Qed.

Lemma Matches_roleWorker : labels.Matches roleWorker roleWorker = true.
Proof. vm_compute. reflexivity. Qed.

(** C9, as the code has it. Scenario A with an exclude selector that
    does not match the labels of the node: the policy is the single
    workload (kube-system, fluentd), the node has the labels
    {role: worker} and no taints, the include selector is {role: worker}
    and no fluentd pod is bound to the node. The pass returns the node
    with the owned taint of fluentd, an added list holding exactly the
    identifier of fluentd and an empty removed list, in both
    generations of the handler. *)
Theorem scenario_A_in_scope (c : Client) (exclude : gmap string string)
    (rt : SharedKey.Runtime) (annotations : option (gmap string string))
    (pods : list corev1.Pod) :
  labels.Matches exclude roleWorker = false ->
  List c "kube-system" = Ok pods ->
  find (ownedBy fluentd "node-1") pods = None ->
  let h := NewHandler c (mkHandlerConfig [fluentd] roleWorker exclude) in
  let instance := workerNode annotations None in
  SharedKey.calculateTaints h rt instance (selectedDaemonsets h instance)
    = Ok (workerNode annotations
            (Some [noSchedule taintKey "kube-system/fluentd"]),
          mkTaintChanges ["kube-system/fluentd"] [])
  /\
  KeyPerWorkload.calculateTaints h instance (selectedDaemonsets h instance)
    = Ok (workerNode annotations
            (Some [noSchedule "nidhogg.uswitch.com/kube-system.fluentd" ""]),
          mkTaintChanges ["nidhogg.uswitch.com/kube-system.fluentd"] []).
Proof.
  intros Hex Hlist Hfind h instance.
  assert (selectedDaemonsets h instance = [fluentd]) as ->.
  { apply (selectedDaemonsets_in h instance); [exact Matches_roleWorker|exact Hex]. }
  assert (getDaemonsetPod h "node-1" fluentd = Ok None) as Hpod.
  { unfold getDaemonsetPod. cbn [client h NewHandler Namespace fluentd].
    rewrite Hlist, Hfind. reflexivity. }
  split.
  - unfold SharedKey.calculateTaints.
    cbn [SharedKey.daemonsetLoop corev1.Name instance workerNode].
    rewrite Hpod.
    replace (SharedKey.collectTaintsToRemove (elems (corev1.Taints instance)))
      with (∅ : gset string) by reflexivity.
    cbn [SharedKey.taintsToRemove].
    rewrite bool_decide_eq_false_2 by set_solver.
    cbn [SharedKey.taintsToRemove].
    rewrite (mapRange_short rt ∅ []); [reflexivity| |simpl; lia].
    apply elements_empty.
  - unfold KeyPerWorkload.calculateTaints.
    cbn [KeyPerWorkload.daemonsetLoop corev1.Name instance workerNode].
    rewrite Hpod. reflexivity.
Qed.

Lemma scenario_A_in_scope_witness :
  SharedKey.calculateTaints (workersOf noPods [fluentd]) runtime0
    (workerNode (Some ∅) None)
    (selectedDaemonsets (workersOf noPods [fluentd]) (workerNode (Some ∅) None))
    = Ok (workerNode (Some ∅) (Some [noSchedule taintKey "kube-system/fluentd"]),
          mkTaintChanges ["kube-system/fluentd"] [])
  /\
  KeyPerWorkload.calculateTaints (workersOf noPods [fluentd])
    (workerNode (Some ∅) None)
    (selectedDaemonsets (workersOf noPods [fluentd]) (workerNode (Some ∅) None))
    = Ok (workerNode (Some ∅)
            (Some [noSchedule "nidhogg.uswitch.com/kube-system.fluentd" ""]),
          mkTaintChanges ["nidhogg.uswitch.com/kube-system.fluentd"] []).
Proof.
  apply (scenario_A_in_scope noPods roleMaster runtime0 (Some ∅) []).
  - vm_compute. reflexivity.
  - reflexivity.
  - reflexivity.
Defined.

(** C9 as stated fails: with the empty exclude selector of Scenario A
    the rejecter matches every label set, the node is out of scope, no
    daemonset is looked up and the pass returns the node without any
    taint and with an empty change record. *)
Lemma scenario_A_empty_exclude :
  labels.Matches (nodeRejecter scenarioA) roleWorker = true
  /\ selectedDaemonsets scenarioA (workerNode (Some ∅) None) = []
  /\ SharedKey.calculateTaints scenarioA runtime0 (workerNode (Some ∅) None)
       (selectedDaemonsets scenarioA (workerNode (Some ∅) None))
     = Ok (workerNode (Some ∅) None, mkTaintChanges [] [])
  /\ KeyPerWorkload.calculateTaints scenarioA (workerNode (Some ∅) None)
       (selectedDaemonsets scenarioA (workerNode (Some ∅) None))
     = Ok (workerNode (Some ∅) None, mkTaintChanges [] []).
Proof. repeat split; vm_compute; reflexivity. Qed.

(** ** The shared-key handler on nodes it has tainted

    [calculateTaints] of the shared-key handler fills [taintsToRemove]
    with the keys of the owned taints, while the daemonset loop looks up
    and [removeTaint] compares the values ("namespace/name"). The
    evaluations below hold for every order in which the runtime ranges
    over the map. *)

Ltac run_shared_pass keys :=
  unfold SharedKey.calculateTaints;
  match goal with
  | |- context [SharedKey.daemonsetLoop ?h ?n ?ds ?st] =>
      let r := eval vm_compute in (SharedKey.daemonsetLoop h n ds st) in
      replace (SharedKey.daemonsetLoop h n ds st) with r
        by (vm_compute; reflexivity)
  end;
  cbv iota beta; cbn [SharedKey.taintsToRemove];
  rewrite (mapRange_short _ _ keys) by (vm_compute; first [reflexivity | lia]);
  vm_compute; reflexivity.

(** C1 on the shared-key handler. A worker node without taints and
    without a fluentd pod is reconciled twice with the same policy and
    the same pods. The first pass adds the taint of fluentd; the second
    pass, run on the node the first one returned, adds the same taint
    again and records a removal: the node is not equal to its input and
    the change record is not empty. *)
Theorem SharedKey_second_pass_changes_node (rt1 rt2 : SharedKey.Runtime) :
  let h := workersOf noPods [fluentd] in
  let t := noSchedule taintKey "kube-system/fluentd" in
  let n0 := workerNode (Some ∅) None in
  let n1 := workerNode (Some ∅) (Some [t]) in
  let n2 := workerNode (Some ∅) (Some [t; t]) in
  SharedKey.calculateTaints h rt1 n0 (selectedDaemonsets h n0)
    = Ok (n1, mkTaintChanges ["kube-system/fluentd"] [])
  /\ SharedKey.calculateTaints h rt2 n1 (selectedDaemonsets h n1)
     = Ok (n2, mkTaintChanges ["kube-system/fluentd"] [taintKey])
  /\ n2 <> n1.
Proof.
  intros h t n0 n1 n2. split; [|split].
  - subst h n0 n1 t. run_shared_pass (@nil string).
  - subst h n1 n2 t. run_shared_pass [taintKey].
  - discriminate.
Qed.

(** C3 on the shared-key handler. The fluentd pod of the node exists
    and all its containers are ready, and the node carries the taint of
    fluentd: the pass returns the node with the taint still on it. *)
Theorem SharedKey_ready_pod_keeps_taint (rt : SharedKey.Runtime) :
  let h := workersOf readyPods [fluentd] in
  let n := workerNode (Some ∅) (Some [noSchedule taintKey "kube-system/fluentd"]) in
  selectedDaemonsets h n = [fluentd]
  /\ getDaemonsetPod h "node-1" fluentd = Ok (Some fluentdPod)
  /\ SharedKey.podReady fluentdPod = true
  /\ SharedKey.calculateTaints h rt n (selectedDaemonsets h n)
     = Ok (n, mkTaintChanges [] [taintKey]).
Proof.
  intros h n. repeat split; try (vm_compute; reflexivity).
  subst h n. run_shared_pass [taintKey].
Qed.

(** C4 on the shared-key handler. The worker node is in scope and
    carries an owned taint for the daemonset kube-system/old, which the
    policy does not list: the pass returns the node with that taint
    still on it. *)
Theorem SharedKey_stale_taint_stays (rt : SharedKey.Runtime) :
  let h := workersOf readyPods [fluentd] in
  let n := workerNode (Some ∅) (Some [noSchedule taintKey "kube-system/old"]) in
  selectedDaemonsets h n = [fluentd]
  /\ owned (noSchedule taintKey "kube-system/old") = true
  /\ SharedKey.calculateTaints h rt n (selectedDaemonsets h n)
     = Ok (n, mkTaintChanges [] [taintKey]).
Proof.
  intros h n. repeat split; try (vm_compute; reflexivity).
  subst h n. run_shared_pass [taintKey].
Qed.

(** C8 on the shared-key handler. With an empty policy, on a worker
    node that carries one owned taint and one taint of another owner,
    the pass returns the taint list as it was and yet records a removal,
    of an identifier (the shared key) that no daemonset has. *)
Theorem SharedKey_records_removal_not_made (rt : SharedKey.Runtime) :
  let h := workersOf noPods [] in
  let n := workerNode (Some ∅)
             (Some [dedicatedTaint; noSchedule taintKey "kube-system/fluentd"]) in
  exists nodeCopy changes,
    SharedKey.calculateTaints h rt n (selectedDaemonsets h n) = Ok (nodeCopy, changes)
    /\ corev1.Taints nodeCopy = corev1.Taints n
    /\ taintsRemoved changes = [taintKey].
Proof.
  intros h n.
  exists n, (mkTaintChanges [] [taintKey]).
  split; [|split; reflexivity].
  subst h n. run_shared_pass [taintKey].
Qed.

(** ** One taint per daemonset *)

Lemma KeyPerWorkload_taintCount_addTaint (k key : string)
    (taints : slice corev1.Taint) :
  taintCount k (KeyPerWorkload.addTaint taints key)
  = taintCount k taints + (if String.eqb key k then 1 else 0).
Proof.
  unfold taintCount, KeyPerWorkload.addTaint, append. cbn [elems].
  rewrite List.filter_app, length_app. cbn [List.filter corev1.Key].
  destruct (String.eqb key k); reflexivity.
Qed.

Lemma KeyPerWorkload_taintCount_removeTaint (k key : string)
    (taints : slice corev1.Taint) :
  taintCount k (KeyPerWorkload.removeTaint taints key)
  = if String.eqb key k then 0 else taintCount k taints.
Proof.
  unfold taintCount. rewrite KeyPerWorkload_elems_removeTaint.
  induction (elems taints) as [|t l IH]; simpl.
  - destruct (String.eqb key k); reflexivity.
  - destruct (String.eqb (corev1.Key t) key) eqn:Htk; simpl.
    + rewrite IH. apply String.eqb_eq in Htk. rewrite Htk.
      destruct (String.eqb key k); reflexivity.
    + destruct (String.eqb (corev1.Key t) k) eqn:Hk; simpl; rewrite IH.
      * destruct (String.eqb key k) eqn:Hkk; [|reflexivity].
        apply String.eqb_eq in Hk, Hkk. subst.
        rewrite String.eqb_refl in Htk. discriminate.
      * reflexivity.
Qed.

Lemma KeyPerWorkload_taintPresent_count (node : corev1.Node) (key : string) :
  KeyPerWorkload.taintPresent node key = negb (Nat.eqb (taintCount key (corev1.Taints node)) 0).
Proof.
  unfold KeyPerWorkload.taintPresent, taintCount.
  induction (elems (corev1.Taints node)) as [|t l IH]; simpl; [reflexivity|].
  destruct (String.eqb (corev1.Key t) key); simpl; [reflexivity|exact IH].
Qed.

Lemma KeyPerWorkload_daemonsetLoop_count (h : Handler) (nodeName k : string)
    (daemonsets : list Daemonset) :
  forall nodeCopy changes nodeCopy' changes',
    KeyPerWorkload.daemonsetLoop h nodeName daemonsets nodeCopy changes
      = Ok (nodeCopy', changes') ->
    taintCount k (corev1.Taints nodeCopy) <= 1 ->
    taintCount k (corev1.Taints nodeCopy') <= 1.
Proof.
  induction daemonsets as [|ds rest IH]; intros n c n' c' H Hle; simpl in H.
  - inversion H; subst. exact Hle.
  - destruct (getDaemonsetPod h nodeName ds) as [pod|err]; [|discriminate].
    destruct (match pod with Some p => KeyPerWorkload.podNotReady p | None => true end).
    + destruct (KeyPerWorkload.taintPresent n _) eqn:Hp; simpl in H.
      * exact (IH _ _ _ _ H Hle).
      * apply (IH _ _ _ _ H). simpl.
        rewrite KeyPerWorkload_taintCount_addTaint.
        destruct (String.eqb (KeyPerWorkload.taintOf ds) k) eqn:Hk; [|lia].
        apply String.eqb_eq in Hk. subst k.
        rewrite KeyPerWorkload_taintPresent_count in Hp.
        apply negb_false_iff, Nat.eqb_eq in Hp. lia.
    + destruct (KeyPerWorkload.taintPresent n _); simpl in H.
      * apply (IH _ _ _ _ H). simpl.
        rewrite KeyPerWorkload_taintCount_removeTaint.
        destruct (String.eqb _ k); lia.
      * exact (IH _ _ _ _ H Hle).
Qed.

(** C2, as the code has it. A pass of the key-per-daemonset handler
    keeps the invariant: when the node has at most one taint with a
    given key (each daemonset has its own key under the prefix
    nidhogg.uswitch.com), so has the returned node. *)
Theorem one_taint_per_key_preserved (h : Handler) (instance : corev1.Node)
    (daemonsets : list Daemonset) (nodeCopy : corev1.Node)
    (changes : taintChanges) (k : string) :
  KeyPerWorkload.calculateTaints h instance daemonsets = Ok (nodeCopy, changes) ->
  taintCount k (corev1.Taints instance) <= 1 ->
  taintCount k (corev1.Taints nodeCopy) <= 1.
Proof.
  unfold KeyPerWorkload.calculateTaints.
  apply KeyPerWorkload_daemonsetLoop_count.
Qed.

Lemma one_taint_per_key_preserved_witness :
  taintCount "nidhogg.uswitch.com/kube-system.fluentd"
    (Some [noSchedule "nidhogg.uswitch.com/kube-system.fluentd" ""]) <= 1.
Proof.
  apply (one_taint_per_key_preserved (workersOf noPods [fluentd])
           (workerNode (Some ∅) None) [fluentd]
           (workerNode (Some ∅)
              (Some [noSchedule "nidhogg.uswitch.com/kube-system.fluentd" ""]))
           (mkTaintChanges ["nidhogg.uswitch.com/kube-system.fluentd"] [])
           "nidhogg.uswitch.com/kube-system.fluentd").
  - vm_compute. reflexivity.
  - vm_compute. lia.
Defined.

(** C2 as stated fails for a node that already has two taints of one
    daemonset: the pod of fluentd is missing, the taint is found present
    and the pass returns both copies. *)
Lemma duplicate_taints_survive :
  KeyPerWorkload.taintOf fluentd = fluentdKey
  /\ KeyPerWorkload.calculateTaints (workersOf noPods [fluentd]) twiceTainted
       (selectedDaemonsets (workersOf noPods [fluentd]) twiceTainted)
     = Ok (twiceTainted, mkTaintChanges [] [])
  /\ taintCount fluentdKey (corev1.Taints twiceTainted) = 2.
Proof. repeat split; vm_compute; reflexivity. Qed.

(** ** The key-per-daemonset handler reaches a fixed point

    The pass that the shared-key handler misses is what the earlier
    generation does: under [consistent], a pass leaves each daemonset of
    the list with its taint present exactly when its pod is unready, and
    a second pass changes nothing. *)

Lemma KeyPerWorkload_daemonsetLoop_turn (h : Handler) (nodeName : string)
    (ds : Daemonset) (rest : list Daemonset) (nodeCopy : corev1.Node)
    (changes : taintChanges) (b : bool) :
  unready h nodeName ds = Some b ->
  KeyPerWorkload.daemonsetLoop h nodeName (ds :: rest) nodeCopy changes =
  KeyPerWorkload.daemonsetLoop h nodeName rest
    (turnNode b ds nodeCopy) (turnChanges b ds nodeCopy changes).
Proof.
  unfold unready, turnNode, turnChanges. simpl.
  destruct (getDaemonsetPod h nodeName ds) as [[pod|]|err]; intros Hb;
    inversion Hb; subst b.
  - destruct (KeyPerWorkload.podNotReady pod);
      destruct (KeyPerWorkload.taintPresent nodeCopy _); reflexivity.
  - destruct (KeyPerWorkload.taintPresent nodeCopy _); reflexivity.
Qed.

Lemma KeyPerWorkload_daemonsetLoop_unresolved (h : Handler) (nodeName : string)
    (ds : Daemonset) (rest : list Daemonset) (nodeCopy : corev1.Node)
    (changes : taintChanges) :
  unready h nodeName ds = None ->
  exists msg,
    KeyPerWorkload.daemonsetLoop h nodeName (ds :: rest) nodeCopy changes = Err msg.
Proof.
  unfold unready. simpl.
  destruct (getDaemonsetPod h nodeName ds) as [[pod|]|err]; try discriminate.
  eauto.
Qed.

(** Take one turn of the loop in the hypothesis [H] of a pass that
    succeeded; [b] names what the resolver said, [Hb] the equation. *)
Ltac take_turn H b Hb :=
  match type of H with
  | KeyPerWorkload.daemonsetLoop ?h ?nm (?ds :: ?rest) ?n ?c = Ok _ =>
      destruct (unready h nm ds) as [b|] eqn:Hb;
      [ rewrite (KeyPerWorkload_daemonsetLoop_turn h nm ds rest n c b Hb) in H
      | let msg := fresh "msg" in
        let Hm := fresh "Hm" in
        destruct (KeyPerWorkload_daemonsetLoop_unresolved h nm ds rest n c Hb)
          as [msg Hm];
        rewrite Hm in H; discriminate H ]
  end.

Lemma turnNode_present (b : bool) (ds : Daemonset) (n : corev1.Node) :
  KeyPerWorkload.taintPresent (turnNode b ds n) (KeyPerWorkload.taintOf ds) = b.
Proof.
  unfold turnNode.
  destruct b; destruct (KeyPerWorkload.taintPresent n _) eqn:Hp; simpl; try exact Hp.
  - rewrite KeyPerWorkload_taintPresent_count. simpl.
    rewrite KeyPerWorkload_taintCount_addTaint, String.eqb_refl.
    destruct (taintCount _ _ + 1) eqn:E; [lia|reflexivity].
  - rewrite KeyPerWorkload_taintPresent_count. simpl.
    rewrite KeyPerWorkload_taintCount_removeTaint, String.eqb_refl. reflexivity.
Qed.

Lemma turnNode_other (b : bool) (ds : Daemonset) (n : corev1.Node) (k : string) :
  KeyPerWorkload.taintOf ds <> k ->
  KeyPerWorkload.taintPresent (turnNode b ds n) k = KeyPerWorkload.taintPresent n k.
Proof.
  intros Hne. apply String.eqb_neq in Hne.
  unfold turnNode.
  destruct b; destruct (KeyPerWorkload.taintPresent n (KeyPerWorkload.taintOf ds));
    simpl; try reflexivity; rewrite !KeyPerWorkload_taintPresent_count; simpl.
  - rewrite KeyPerWorkload_taintCount_addTaint, Hne, Nat.add_0_r. reflexivity.
  - rewrite KeyPerWorkload_taintCount_removeTaint, Hne. reflexivity.
Qed.

Lemma turnNode_settled (b : bool) (ds : Daemonset) (n : corev1.Node)
    (c : taintChanges) :
  KeyPerWorkload.taintPresent n (KeyPerWorkload.taintOf ds) = b ->
  turnNode b ds n = n /\ turnChanges b ds n c = c.
Proof.
  intros <-. unfold turnNode, turnChanges.
  destruct (KeyPerWorkload.taintPresent n _); split; reflexivity.
Qed.

Lemma turnNode_Name (b : bool) (ds : Daemonset) (n : corev1.Node) :
  corev1.Name (turnNode b ds n) = corev1.Name n.
Proof.
  unfold turnNode.
  destruct b; destruct (KeyPerWorkload.taintPresent n _); reflexivity.
Qed.

Lemma KeyPerWorkload_daemonsetLoop_Name (h : Handler) (nodeName : string)
    (daemonsets : list Daemonset) :
  forall n c n' c',
    KeyPerWorkload.daemonsetLoop h nodeName daemonsets n c = Ok (n', c') ->
    corev1.Name n' = corev1.Name n.
Proof.
  induction daemonsets as [|ds rest IH]; intros n c n' c' H.
  - inversion H. reflexivity.
  - take_turn H b Hb.
    rewrite (IH _ _ _ _ H). apply turnNode_Name.
Qed.

(** Every daemonset of a pass that succeeded was resolved. *)
Lemma KeyPerWorkload_daemonsetLoop_resolved (h : Handler) (nodeName : string)
    (daemonsets : list Daemonset) :
  forall n c n' c',
    KeyPerWorkload.daemonsetLoop h nodeName daemonsets n c = Ok (n', c') ->
    forall d, In d daemonsets -> exists b, unready h nodeName d = Some b.
Proof.
  induction daemonsets as [|ds rest IH]; intros n c n' c' H d Hin; [destruct Hin|].
  take_turn H b Hb.
  destruct Hin as [<-|Hin]; [eauto|]. exact (IH _ _ _ _ H d Hin).
Qed.

(** The loop leaves the presence of a key as it is when every daemonset
    with that key asks for what is there. *)
Lemma KeyPerWorkload_daemonsetLoop_keeps (h : Handler) (nodeName k : string)
    (b : bool) (daemonsets : list Daemonset) :
  (forall d, In d daemonsets -> KeyPerWorkload.taintOf d = k ->
             unready h nodeName d = Some b) ->
  forall n c n' c',
    KeyPerWorkload.daemonsetLoop h nodeName daemonsets n c = Ok (n', c') ->
    KeyPerWorkload.taintPresent n k = b ->
    KeyPerWorkload.taintPresent n' k = b.
Proof.
  induction daemonsets as [|ds rest IH]; intros Hall n c n' c' H Hp.
  - assert (n' = n) as -> by (simpl in H; congruence). exact Hp.
  - take_turn H b' Hb.
    apply (IH (fun d Hd => Hall d (or_intror Hd)) _ _ _ _ H).
    destruct (string_dec (KeyPerWorkload.taintOf ds) k) as [Heq|Hne].
    + assert (b' = b) as ->.
      { pose proof (Hall ds (or_introl eq_refl) Heq). congruence. }
      rewrite <- Heq. apply turnNode_present.
    + rewrite (turnNode_other _ _ _ _ Hne). exact Hp.
Qed.

Lemma KeyPerWorkload_daemonsetLoop_settles (h : Handler) (nodeName : string)
    (daemonsets : list Daemonset) :
  consistent h nodeName daemonsets ->
  forall n c n' c',
    KeyPerWorkload.daemonsetLoop h nodeName daemonsets n c = Ok (n', c') ->
    forall d, In d daemonsets ->
      unready h nodeName d
      = Some (KeyPerWorkload.taintPresent n' (KeyPerWorkload.taintOf d)).
Proof.
  induction daemonsets as [|ds rest IH]; intros Hcons n c n' c' H d Hin;
    [destruct Hin|].
  pose proof H as Hturn. take_turn Hturn b Hb.
  assert (consistent h nodeName rest) as Hrest.
  { intros d1 d2 H1 H2. apply Hcons; right; assumption. }
  destruct Hin as [<-|Hin]; [|exact (IH Hrest _ _ _ _ Hturn d Hin)].
  rewrite Hb. f_equal. symmetry.
  refine (KeyPerWorkload_daemonsetLoop_keeps h nodeName _ b rest _ _ _ _ _ Hturn _).
  - intros d' Hd' Hk. rewrite <- Hb. apply Hcons; [right; exact Hd'|left; reflexivity|exact Hk].
  - apply turnNode_present.
Qed.

Lemma KeyPerWorkload_daemonsetLoop_fixed (h : Handler) (nodeName : string)
    (n : corev1.Node) (daemonsets : list Daemonset) :
  (forall d, In d daemonsets ->
     unready h nodeName d
     = Some (KeyPerWorkload.taintPresent n (KeyPerWorkload.taintOf d))) ->
  forall c, KeyPerWorkload.daemonsetLoop h nodeName daemonsets n c = Ok (n, c).
Proof.
  induction daemonsets as [|ds rest IH]; intros Hall c; [reflexivity|].
  rewrite (KeyPerWorkload_daemonsetLoop_turn _ _ _ _ _ _ _ (Hall ds (or_introl eq_refl))).
  destruct (turnNode_settled _ ds n c eq_refl) as [-> ->].
  apply IH. intros d Hd. apply Hall. right. exact Hd.
Qed.

(** The key-per-daemonset handler is idempotent: the pass run on the
    node that a pass returned, with the same daemonsets and the same
    pods, returns that node and an empty change record. *)
Lemma KeyPerWorkload_calculateTaints_idempotent (h : Handler)
    (instance : corev1.Node) (daemonsets : list Daemonset)
    (nodeCopy : corev1.Node) (changes : taintChanges) :
  consistent h (corev1.Name instance) daemonsets ->
  KeyPerWorkload.calculateTaints h instance daemonsets = Ok (nodeCopy, changes) ->
  KeyPerWorkload.calculateTaints h nodeCopy daemonsets
  = Ok (nodeCopy, mkTaintChanges [] []).
Proof.
  unfold KeyPerWorkload.calculateTaints. intros Hcons H.
  rewrite (KeyPerWorkload_daemonsetLoop_Name _ _ _ _ _ _ _ H).
  apply KeyPerWorkload_daemonsetLoop_fixed.
  exact (KeyPerWorkload_daemonsetLoop_settles _ _ _ Hcons _ _ _ _ H).
Qed.

(** After a pass of the key-per-daemonset handler the taint of each
    daemonset of the list is on the node exactly when its pod is missing
    or unready. *)
Lemma KeyPerWorkload_calculateTaints_settles (h : Handler)
    (instance : corev1.Node) (daemonsets : list Daemonset)
    (nodeCopy : corev1.Node) (changes : taintChanges) (d : Daemonset) :
  consistent h (corev1.Name instance) daemonsets ->
  KeyPerWorkload.calculateTaints h instance daemonsets = Ok (nodeCopy, changes) ->
  In d daemonsets ->
  unready h (corev1.Name instance) d
  = Some (KeyPerWorkload.taintPresent nodeCopy (KeyPerWorkload.taintOf d)).
Proof.
  unfold KeyPerWorkload.calculateTaints. intros Hcons H Hin.
  exact (KeyPerWorkload_daemonsetLoop_settles _ _ _ Hcons _ _ _ _ H d Hin).
Qed.

(** Distinct taint keys make a policy consistent. *)
Lemma consistent_NoDup (h : Handler) (nodeName : string)
    (daemonsets : list Daemonset) :
  NoDup (map KeyPerWorkload.taintOf daemonsets) ->
  consistent h nodeName daemonsets.
Proof.
  intros Hnd d1 d2 H1 H2 Hk.
  enough (d1 = d2) as -> by reflexivity.
  induction daemonsets as [|d rest IH]; [destruct H1|].
  simpl in Hnd. apply NoDup_cons in Hnd as [Hnotin Hnd].
  destruct H1 as [->|H1], H2 as [->|H2]; try reflexivity.
  - exfalso. apply Hnotin. rewrite Hk. apply list_elem_of_In, in_map, H2.
  - exfalso. apply Hnotin. rewrite <- Hk. apply list_elem_of_In, in_map, H1.
  - exact (IH Hnd H1 H2).
Qed.

Example KeyPerWorkload_second_pass_fixed :
  KeyPerWorkload.calculateTaints (workersOf noPods [fluentd])
    (workerNode (Some ∅) (Some [noSchedule fluentdKey ""])) [fluentd]
  = Ok (workerNode (Some ∅) (Some [noSchedule fluentdKey ""]),
        mkTaintChanges [] []).
Proof.
  apply (KeyPerWorkload_calculateTaints_idempotent (workersOf noPods [fluentd])
           (workerNode (Some ∅) None) [fluentd] _ (mkTaintChanges [fluentdKey] [])).
  - apply consistent_NoDup. repeat constructor. set_solver.
  - vm_compute. reflexivity.
Qed.

(** The change record of the key-per-daemonset handler: a key it lists
    as added was absent before the loop and is present after it, a key
    it lists as removed was present before and is absent after. *)
Lemma KeyPerWorkload_daemonsetLoop_record (h : Handler) (nodeName k : string)
    (daemonsets : list Daemonset) :
  consistent h nodeName daemonsets ->
  forall n c n' c',
    KeyPerWorkload.daemonsetLoop h nodeName daemonsets n c = Ok (n', c') ->
    (In k (taintsAdded c') ->
       In k (taintsAdded c)
       \/ (KeyPerWorkload.taintPresent n k = false
           /\ KeyPerWorkload.taintPresent n' k = true))
    /\
    (In k (taintsRemoved c') ->
       In k (taintsRemoved c)
       \/ (KeyPerWorkload.taintPresent n k = true
           /\ KeyPerWorkload.taintPresent n' k = false)).
Proof.
  induction daemonsets as [|ds rest IH]; intros Hcons n c n' c' H.
  { simpl in H. assert (c' = c) as -> by congruence. auto. }
  take_turn H b Hb.
  assert (consistent h nodeName rest) as Hrest.
  { intros d1 d2 H1 H2. apply Hcons; right; assumption. }
  assert (forall d, In d rest -> KeyPerWorkload.taintOf d = KeyPerWorkload.taintOf ds ->
                    unready h nodeName d = Some b) as Hsame.
  { intros d Hd Hk. rewrite <- Hb.
    apply Hcons; [right; exact Hd|left; reflexivity|exact Hk]. }
  pose proof (KeyPerWorkload_daemonsetLoop_keeps h nodeName _ b rest Hsame
                _ _ _ _ H (turnNode_present b ds n)) as Hend.
  destruct (IH Hrest _ _ _ _ H) as [IHa IHr].
  destruct (string_dec (KeyPerWorkload.taintOf ds) k) as [Heq|Hne].
  - subst k. rewrite turnNode_present in IHa, IHr. rewrite Hend in IHa, IHr.
    unfold turnChanges in IHa, IHr.
    destruct b; destruct (KeyPerWorkload.taintPresent n _) eqn:Hp;
      simpl in IHa, IHr; split; intros Hin;
      (destruct (IHa Hin) as [Hc|[? ?]] || destruct (IHr Hin) as [Hc|[? ?]]);
      try congruence; try (apply in_app_or in Hc as [Hc|Hc]); auto.
  - rewrite (turnNode_other _ _ _ _ Hne) in IHa, IHr.
    assert (forall l, In k (l ++ [KeyPerWorkload.taintOf ds]) -> In k l) as Hdrop.
    { intros l Hl. apply in_app_or in Hl as [Hl|[Hl|[]]]; [exact Hl|congruence]. }
    unfold turnChanges in IHa, IHr.
    destruct b; destruct (KeyPerWorkload.taintPresent n _);
      simpl in IHa, IHr; split; intros Hin;
      (destruct (IHa Hin) as [Hc|Hc] || destruct (IHr Hin) as [Hc|Hc]); auto.
Qed.

Lemma KeyPerWorkload_calculateTaints_record (h : Handler)
    (instance : corev1.Node) (daemonsets : list Daemonset)
    (nodeCopy : corev1.Node) (changes : taintChanges) (k : string) :
  consistent h (corev1.Name instance) daemonsets ->
  KeyPerWorkload.calculateTaints h instance daemonsets = Ok (nodeCopy, changes) ->
  (In k (taintsAdded changes) ->
     KeyPerWorkload.taintPresent instance k = false
     /\ KeyPerWorkload.taintPresent nodeCopy k = true)
  /\
  (In k (taintsRemoved changes) ->
     KeyPerWorkload.taintPresent instance k = true
     /\ KeyPerWorkload.taintPresent nodeCopy k = false).
Proof.
  unfold KeyPerWorkload.calculateTaints. intros Hcons H.
  destruct (KeyPerWorkload_daemonsetLoop_record h _ k _ Hcons _ _ _ _ H) as [Ha Hr].
  split; intros Hin; [destruct (Ha Hin) as [[]|?]|destruct (Hr Hin) as [[]|?]];
    assumption.
Qed.

(** * Further properties of the handler *)

(** ** The readiness resolver *)

Lemma ownedBy_true (ds : Daemonset) (nodeName : string) (pod : corev1.Pod) :
  ownedBy ds nodeName pod = true <->
  In (Name ds) (corev1.OwnerReferences pod) /\ corev1.NodeName pod = nodeName.
Proof.
  unfold ownedBy. rewrite existsb_exists. split.
  - intros (owner & Hin & Hb). apply andb_true_iff in Hb as [Ho Hn].
    apply String.eqb_eq in Ho, Hn. subst. auto.
  - intros [Hin <-]. exists (Name ds). split; [exact Hin|].
    rewrite !String.eqb_refl. reflexivity.
Qed.

(** X1. The pod that getDaemonsetPod returns is one of the pods listed
    in the namespace of the daemonset, has an owner reference with the
    name of the daemonset and is bound to the node asked for. *)
Theorem getDaemonsetPod_found (h : Handler) (nodeName : string)
    (ds : Daemonset) (pod : corev1.Pod) :
  getDaemonsetPod h nodeName ds = Ok (Some pod) ->
  exists pods,
    List (client h) (Namespace ds) = Ok pods
    /\ In pod pods
    /\ In (Name ds) (corev1.OwnerReferences pod)
    /\ corev1.NodeName pod = nodeName.
Proof.
  unfold getDaemonsetPod.
  destruct (List (client h) (Namespace ds)) as [pods|err]; [|discriminate].
  intros H. assert (find (ownedBy ds nodeName) pods = Some pod) as Hf by congruence.
  apply find_some in Hf as [Hin Hb]. apply ownedBy_true in Hb as [Ho Hn].
  exists pods. auto.
Qed.

Lemma getDaemonsetPod_found_witness :
  exists pods,
    List (client (workersOf readyPods [fluentd])) (Namespace fluentd) = Ok pods
    /\ In fluentdPod pods
    /\ In (Name fluentd) (corev1.OwnerReferences fluentdPod)
    /\ corev1.NodeName fluentdPod = "node-1".
Proof.
  apply (getDaemonsetPod_found (workersOf readyPods [fluentd]) "node-1" fluentd
           fluentdPod).
  reflexivity.
Defined.

(** X2. When the list call succeeds, getDaemonsetPod reports no pod
    (and no error) exactly when no listed pod is both owned by the
    daemonset and bound to the node. *)
Theorem getDaemonsetPod_none_iff (h : Handler) (nodeName : string)
    (ds : Daemonset) (pods : list corev1.Pod) :
  List (client h) (Namespace ds) = Ok pods ->
  (getDaemonsetPod h nodeName ds = Ok None <->
   forall pod, In pod pods ->
     ~ (In (Name ds) (corev1.OwnerReferences pod)
        /\ corev1.NodeName pod = nodeName)).
Proof.
  intros Hlist. unfold getDaemonsetPod. rewrite Hlist. split.
  - intros H pod Hin Hown.
    assert (find (ownedBy ds nodeName) pods = None) as Hf by congruence.
    apply (find_none _ _ Hf) in Hin. apply ownedBy_true in Hown. congruence.
  - intros Hnone. destruct (find (ownedBy ds nodeName) pods) as [pod|] eqn:Hf;
      [|reflexivity].
    apply find_some in Hf as [Hin Hb]. apply ownedBy_true in Hb.
    destruct (Hnone pod Hin Hb).
Qed.

Lemma getDaemonsetPod_none_iff_witness :
  getDaemonsetPod
    (workersOf (mkClient (fun _ => Ok [fluentdPodElsewhere]) (fun _ => None)) [fluentd])
    "node-1" fluentd = Ok None.
Proof.
  apply (proj2 (getDaemonsetPod_none_iff
                  (workersOf (mkClient (fun _ => Ok [fluentdPodElsewhere])
                                       (fun _ => None)) [fluentd])
                  "node-1" fluentd [fluentdPodElsewhere] eq_refl)).
  intros pod [<-|[]] [_ Hn]. discriminate Hn.
Defined.

(** X3. Of several pods of the daemonset on the node, the first in the
    order of the list is the one getDaemonsetPod returns. *)
Theorem getDaemonsetPod_first_match (h : Handler) (nodeName : string)
    (ds : Daemonset) (before after : list corev1.Pod) (pod : corev1.Pod) :
  List (client h) (Namespace ds) = Ok (before ++ pod :: after) ->
  (forall p, In p before ->
     ~ (In (Name ds) (corev1.OwnerReferences p) /\ corev1.NodeName p = nodeName)) ->
  In (Name ds) (corev1.OwnerReferences pod) ->
  corev1.NodeName pod = nodeName ->
  getDaemonsetPod h nodeName ds = Ok (Some pod).
Proof.
  intros Hlist Hbefore Ho Hn. unfold getDaemonsetPod. rewrite Hlist. f_equal.
  clear Hlist. induction before as [|p before IH]; simpl.
  - rewrite (proj2 (ownedBy_true ds nodeName pod) (conj Ho Hn)). reflexivity.
  - destruct (ownedBy ds nodeName p) eqn:Hp.
    + apply ownedBy_true in Hp. destruct (Hbefore p (or_introl eq_refl) Hp).
    + apply IH. intros q Hq. apply Hbefore. right. exact Hq.
Qed.

Lemma getDaemonsetPod_first_match_witness :
  getDaemonsetPod
    (workersOf (mkClient (fun _ => Ok [fluentdPodElsewhere; fluentdPodUnready; fluentdPod])
                         (fun _ => None)) [fluentd])
    "node-1" fluentd = Ok (Some fluentdPodUnready).
Proof.
  apply (getDaemonsetPod_first_match _ "node-1" fluentd
           [fluentdPodElsewhere] [fluentdPod] fluentdPodUnready).
  - reflexivity.
  - intros p [<-|[]] [_ Hn]. discriminate Hn.
  - left. reflexivity.
  - reflexivity.
Defined.

(** X4. The two generations read readiness alike: podReady holds of a
    pod exactly when podNotReady does not, so both taint a node on the
    same condition; both take a pod without container statuses as
    ready. *)
Theorem podReady_not_podNotReady (pod : corev1.Pod) :
  SharedKey.podReady pod = negb (KeyPerWorkload.podNotReady pod)
  /\ (corev1.ContainerStatuses pod = [] -> SharedKey.podReady pod = true).
Proof.
  unfold SharedKey.podReady, KeyPerWorkload.podNotReady. split.
  - induction (corev1.ContainerStatuses pod) as [|st l IH]; simpl; [reflexivity|].
    rewrite IH. destruct (corev1.Ready st); reflexivity.
  - intros ->. reflexivity.
Qed.

Lemma podReady_not_podNotReady_witness :
  SharedKey.podReady (corev1.mkPod ["fluentd"] "node-1" []) = true.
Proof.
  apply (proj2 (podReady_not_podNotReady (corev1.mkPod ["fluentd"] "node-1" []))).
  reflexivity.
Defined.

(** ** Adding and removing taints *)

Lemma nilIfEmpty_elems (l : list corev1.Taint) : elems (nilIfEmpty l) = l.
Proof. destruct l; reflexivity. Qed.

Lemma SharedKey_removeTaint_nilIfEmpty (taints : slice corev1.Taint) (v : string) :
  SharedKey.removeTaint taints v
  = nilIfEmpty
      (List.filter
         (fun taint => negb (String.eqb (corev1.Key taint) taintKey
                             && String.eqb (corev1.Value taint) v))
         (elems taints)).
Proof. reflexivity. Qed.

Lemma KeyPerWorkload_removeTaint_nilIfEmpty (taints : slice corev1.Taint) (k : string) :
  KeyPerWorkload.removeTaint taints k
  = nilIfEmpty
      (List.filter (fun taint => negb (String.eqb (corev1.Key taint) k))
                   (elems taints)).
Proof. reflexivity. Qed.

Lemma filter_nil_iff {A : Type} (p : A -> bool) (l : list A) :
  List.filter p l = [] <-> forall x, In x l -> p x = false.
Proof.
  induction l as [|x l IH]; simpl.
  - split; [intros _ y []|reflexivity].
  - destruct (p x) eqn:Hp.
    + split; [discriminate|]. intros H.
      rewrite (H x (or_introl eq_refl)) in Hp. discriminate.
    + rewrite IH. split.
      * intros H y [<-|Hy]; auto.
      * intros H y Hy. apply H. right. exact Hy.
Qed.

Lemma filter_all {A : Type} (p : A -> bool) (l : list A) :
  (forall x, In x l -> p x = true) -> List.filter p l = l.
Proof.
  induction l as [|x l IH]; intros H; simpl; [reflexivity|].
  rewrite (H x (or_introl eq_refl)). f_equal.
  apply IH. intros y Hy. apply H. right. exact Hy.
Qed.

Lemma nilIfEmpty_None (l : list corev1.Taint) : nilIfEmpty l = None <-> l = [].
Proof. destruct l; simpl; split; congruence. Qed.

(** X5. removeTaint never returns an empty list that is not nil: it
    returns nil exactly when every taint of its input is removed (so
    also for an empty input), in both generations. *)
Theorem removeTaint_nil_when_empty (taints : slice corev1.Taint) (v k : string) :
  SharedKey.removeTaint taints v <> Some []
  /\ KeyPerWorkload.removeTaint taints k <> Some []
  /\ (SharedKey.removeTaint taints v = None <->
      forall t, In t (elems taints) ->
        corev1.Key t = taintKey /\ corev1.Value t = v)
  /\ (KeyPerWorkload.removeTaint taints k = None <->
      forall t, In t (elems taints) -> corev1.Key t = k).
Proof.
  rewrite SharedKey_removeTaint_nilIfEmpty, KeyPerWorkload_removeTaint_nilIfEmpty.
  split; [|split; [|split]].
  - destruct (List.filter _ _); discriminate.
  - destruct (List.filter _ _); discriminate.
  - rewrite nilIfEmpty_None, filter_nil_iff.
    split; intros H t Ht; specialize (H t Ht).
    + apply negb_false_iff, andb_true_iff in H as [Hk Hv].
      apply String.eqb_eq in Hk, Hv. auto.
    + destruct H as [-> ->]. rewrite !String.eqb_refl. reflexivity.
  - rewrite nilIfEmpty_None, filter_nil_iff.
    split; intros H t Ht; specialize (H t Ht).
    + apply negb_false_iff, String.eqb_eq in H. exact H.
    + rewrite H, String.eqb_refl. reflexivity.
Qed.

(** X6. Presence after a change, in the key-per-daemonset handler: a
    key is present after addTaint when it was present or is the key
    added, and after removeTaint when it was present and is not the key
    removed. *)
Theorem taintPresent_after_change (node : corev1.Node) (k k' : string) :
  KeyPerWorkload.taintPresent
    (KeyPerWorkload.withTaints node (KeyPerWorkload.addTaint (corev1.Taints node) k)) k'
  = KeyPerWorkload.taintPresent node k' || String.eqb k k'
  /\
  KeyPerWorkload.taintPresent
    (KeyPerWorkload.withTaints node (KeyPerWorkload.removeTaint (corev1.Taints node) k)) k'
  = KeyPerWorkload.taintPresent node k' && negb (String.eqb k k').
Proof.
  unfold KeyPerWorkload.taintPresent, KeyPerWorkload.withTaints. cbn [corev1.Taints].
  split.
  - unfold KeyPerWorkload.addTaint, append. cbn [elems].
    rewrite existsb_app. simpl. rewrite orb_false_r. reflexivity.
  - rewrite KeyPerWorkload_elems_removeTaint.
    induction (elems (corev1.Taints node)) as [|t l IH]; simpl; [reflexivity|].
    destruct (String.eqb (corev1.Key t) k) eqn:Htk; simpl.
    + rewrite IH. apply String.eqb_eq in Htk. rewrite Htk.
      destruct (String.eqb k k'); simpl; [apply andb_false_r|reflexivity].
    + rewrite IH. destruct (String.eqb (corev1.Key t) k') eqn:Htk'; simpl;
        [|reflexivity].
      destruct (String.eqb k k') eqn:Hkk'; [|reflexivity].
      apply String.eqb_eq in Htk', Hkk'. subst.
      rewrite String.eqb_refl in Htk. discriminate.
Qed.



(** ** What a pass of calculateTaints leaves alone *)

Lemma SharedKey_daemonsetLoop_filter (q : corev1.Taint -> bool) (h : Handler)
    (nodeName : string) (daemonsets : list Daemonset) :
  (forall t, q t = true -> String.eqb (corev1.Key t) taintKey = false) ->
  forall st st',
    SharedKey.daemonsetLoop h nodeName daemonsets st = Ok st' ->
    List.filter q (elems (SharedKey.nodeTaints st'))
    = List.filter q (elems (SharedKey.nodeTaints st)).
Proof.
  intros Hq.
  induction daemonsets as [|ds rest IH]; intros st st' H; simpl in H.
  - congruence.
  - destruct (getDaemonsetPod h nodeName ds) as [pod|err]; [|discriminate].
    destruct (match pod with Some p => SharedKey.podReady p | None => false end).
    + exact (IH _ _ H).
    + destruct (bool_decide _); [exact (IH _ _ H)|].
      rewrite (IH _ _ H). cbn [SharedKey.nodeTaints].
      unfold SharedKey.addTaint, append. cbn [elems].
      rewrite List.filter_app. cbn [List.filter].
      destruct (q _) eqn:Hnew; [|apply app_nil_r].
      apply Hq in Hnew. discriminate Hnew.
Qed.

Lemma SharedKey_sweepLoop_filter (q : corev1.Taint -> bool) (keys : list string) :
  (forall t, q t = true -> String.eqb (corev1.Key t) taintKey = false) ->
  forall st,
    List.filter q (elems (SharedKey.nodeTaints (SharedKey.sweepLoop keys st)))
    = List.filter q (elems (SharedKey.nodeTaints st)).
Proof.
  intros Hq. unfold SharedKey.sweepLoop.
  induction keys as [|k keys IH]; intros st; simpl; [reflexivity|].
  rewrite IH. cbn [SharedKey.nodeTaints]. rewrite SharedKey_elems_removeTaint.
  apply filter_filter_weaker. intros t Ht. rewrite (Hq t Ht). reflexivity.
Qed.

(** X8. A pass of the shared-key handler keeps, in place, every taint
    whose key is not exactly nidhogg.uswitch.com, also an owned taint
    with a longer key such as the per-daemonset keys of the other
    generation: the sweep never removes those. *)
Theorem SharedKey_keeps_other_keys (h : Handler) (rt : SharedKey.Runtime)
    (instance : corev1.Node) (daemonsets : list Daemonset)
    (nodeCopy : corev1.Node) (changes : taintChanges) :
  SharedKey.calculateTaints h rt instance daemonsets = Ok (nodeCopy, changes) ->
  List.filter (fun t => negb (String.eqb (corev1.Key t) taintKey))
              (elems (corev1.Taints nodeCopy))
  = List.filter (fun t => negb (String.eqb (corev1.Key t) taintKey))
                (elems (corev1.Taints instance)).
Proof.
  intros H. apply SharedKey_calculateTaints_inv in H as (st1 & Hloop & -> & _).
  cbn [corev1.Taints].
  assert (forall t, negb (String.eqb (corev1.Key t) taintKey) = true ->
                    String.eqb (corev1.Key t) taintKey = false) as Hq.
  { intros t Ht. apply negb_true_iff in Ht. exact Ht. }
  rewrite (SharedKey_sweepLoop_filter _ _ Hq).
  exact (SharedKey_daemonsetLoop_filter _ _ _ _ Hq _ _ Hloop).
Qed.

Lemma SharedKey_keeps_other_keys_witness :
  List.filter (fun t => negb (String.eqb (corev1.Key t) taintKey))
    [noSchedule fluentdKey ""; noSchedule taintKey "kube-system/fluentd"]
  = [noSchedule fluentdKey ""].
Proof.
  apply (SharedKey_keeps_other_keys (workersOf noPods [fluentd]) runtime0
           (workerNode (Some ∅) (Some [noSchedule fluentdKey ""])) [fluentd]
           (workerNode (Some ∅)
              (Some [noSchedule fluentdKey ""; noSchedule taintKey "kube-system/fluentd"]))
           (mkTaintChanges ["kube-system/fluentd"] [fluentdKey])).
  vm_compute. reflexivity.
Defined.

Lemma withTaints_own (node : corev1.Node) :
  KeyPerWorkload.withTaints node (corev1.Taints node) = node.
Proof. destruct node. reflexivity. Qed.

Lemma KeyPerWorkload_daemonsetLoop_withTaints (h : Handler) (nodeName : string)
    (daemonsets : list Daemonset) :
  forall n c n' c',
    KeyPerWorkload.daemonsetLoop h nodeName daemonsets n c = Ok (n', c') ->
    n' = KeyPerWorkload.withTaints n (corev1.Taints n').
Proof.
  induction daemonsets as [|ds rest IH]; intros n c n' c' H.
  - simpl in H. assert (n' = n) as -> by congruence. symmetry. apply withTaints_own.
  - take_turn H b Hb. rewrite (IH _ _ _ _ H) at 1.
    unfold turnNode.
    destruct b; destruct (KeyPerWorkload.taintPresent n _); reflexivity.
Qed.

(** X9. calculateTaints changes nothing of a node but its taint list:
    name, UID, labels and annotations of the returned copy are those of
    the input, in both generations. *)
Theorem calculateTaints_only_taints (h : Handler) (rt : SharedKey.Runtime)
    (instance : corev1.Node) (daemonsets : list Daemonset)
    (nodeCopy : corev1.Node) (changes : taintChanges) :
  SharedKey.calculateTaints h rt instance daemonsets = Ok (nodeCopy, changes)
  \/ KeyPerWorkload.calculateTaints h instance daemonsets = Ok (nodeCopy, changes) ->
  nodeCopy = KeyPerWorkload.withTaints instance (corev1.Taints nodeCopy).
Proof.
  intros [H|H].
  - apply SharedKey_calculateTaints_inv in H as (st1 & _ & -> & _). reflexivity.
  - exact (KeyPerWorkload_daemonsetLoop_withTaints _ _ _ _ _ _ _ H).
Qed.

Lemma calculateTaints_only_taints_witness :
  workerNode (Some ∅) (Some [noSchedule taintKey "kube-system/fluentd"])
  = KeyPerWorkload.withTaints (workerNode (Some ∅) None)
      (Some [noSchedule taintKey "kube-system/fluentd"]).
Proof.
  apply (calculateTaints_only_taints (workersOf noPods [fluentd]) runtime0
           (workerNode (Some ∅) None) [fluentd]
           (workerNode (Some ∅) (Some [noSchedule taintKey "kube-system/fluentd"]))
           (mkTaintChanges ["kube-system/fluentd"] [])).
  left. vm_compute. reflexivity.
Defined.

(** ** Which lookup failure a pass reports *)

Lemma firstFailure_nil (h : Handler) (msg : string) : ~ firstFailure h [] msg.
Proof.
  intros (before & d & after & e & Heq & _). destruct before; discriminate.
Qed.

Lemma firstFailure_cons_Err (h : Handler) (d : Daemonset)
    (rest : list Daemonset) (e msg : string) :
  List (client h) (Namespace d) = Err e ->
  (firstFailure h (d :: rest) msg <-> msg = "error fetching pods: " +:+ e).
Proof.
  intros Hd. split.
  - intros (before & d0 & after & e0 & Heq & Hok & Herr & ->).
    destruct before as [|d1 before]; simpl in Heq; injection Heq as Hd0 Hrest.
    + subst d0. congruence.
    + subst d1. destruct (Hok d (or_introl eq_refl)) as [pods Hpods]. congruence.
  - intros ->. exists [], d, rest, e. repeat split; auto. intros d' [].
Qed.

Lemma firstFailure_cons_Ok (h : Handler) (d : Daemonset)
    (rest : list Daemonset) (pods : list corev1.Pod) (msg : string) :
  List (client h) (Namespace d) = Ok pods ->
  (firstFailure h (d :: rest) msg <-> firstFailure h rest msg).
Proof.
  intros Hd. split.
  - intros (before & d0 & after & e0 & Heq & Hok & Herr & ->).
    destruct before as [|d1 before]; simpl in Heq; injection Heq as Hd0 Hrest.
    + subst d0. congruence.
    + subst d1 rest. exists before, d0, after, e0. repeat split; auto.
      intros d' Hd'. apply Hok. right. exact Hd'.
  - intros (before & d0 & after & e0 & -> & Hok & Herr & ->).
    exists (d :: before), d0, after, e0. repeat split; auto.
    intros d' [<-|Hd']; [eauto|auto].
Qed.

Lemma SharedKey_daemonsetLoop_Err_iff (h : Handler) (nodeName : string)
    (daemonsets : list Daemonset) (msg : string) :
  forall st,
    SharedKey.daemonsetLoop h nodeName daemonsets st = Err msg
    <-> firstFailure h daemonsets msg.
Proof.
  induction daemonsets as [|d rest IH]; intros st; simpl.
  - split; [discriminate|]. intros H. destruct (firstFailure_nil _ _ H).
  - unfold getDaemonsetPod.
    destruct (List (client h) (Namespace d)) as [pods|e] eqn:Hd.
    + rewrite (firstFailure_cons_Ok _ _ _ _ _ Hd).
      destruct (match find (ownedBy d nodeName) pods with
                | Some p => SharedKey.podReady p | None => false end);
        [|destruct (bool_decide _)]; apply IH.
    + rewrite (firstFailure_cons_Err _ _ _ _ _ Hd). split; congruence.
Qed.

Lemma KeyPerWorkload_daemonsetLoop_Err_iff (h : Handler) (nodeName : string)
    (daemonsets : list Daemonset) (msg : string) :
  forall n c,
    KeyPerWorkload.daemonsetLoop h nodeName daemonsets n c = Err msg
    <-> firstFailure h daemonsets msg.
Proof.
  induction daemonsets as [|d rest IH]; intros n c; simpl.
  - split; [discriminate|]. intros H. destruct (firstFailure_nil _ _ H).
  - unfold getDaemonsetPod.
    destruct (List (client h) (Namespace d)) as [pods|e] eqn:Hd.
    + rewrite (firstFailure_cons_Ok _ _ _ _ _ Hd).
      destruct (match find (ownedBy d nodeName) pods with
                | Some p => KeyPerWorkload.podNotReady p | None => true end);
        destruct (KeyPerWorkload.taintPresent n _); simpl; apply IH.
    + rewrite (firstFailure_cons_Err _ _ _ _ _ Hd). split; congruence.
Qed.

(** X10. calculateTaints fails exactly when the list call fails for the
    namespace of some daemonset of its list, and the error it returns is
    that of the first such daemonset in the order of the list, behind
    the words "error fetching pods: "; the daemonsets after it are not
    looked up. This holds in both generations. *)
Theorem calculateTaints_error_iff (h : Handler) (rt : SharedKey.Runtime)
    (instance : corev1.Node) (daemonsets : list Daemonset) (msg : string) :
  (SharedKey.calculateTaints h rt instance daemonsets = Err msg
   <-> firstFailure h daemonsets msg)
  /\
  (KeyPerWorkload.calculateTaints h instance daemonsets = Err msg
   <-> firstFailure h daemonsets msg).
Proof.
  split.
  - rewrite <- (SharedKey_daemonsetLoop_Err_iff h (corev1.Name instance) daemonsets msg
                  (SharedKey.mkLoopState
                     (SharedKey.collectTaintsToRemove (elems (corev1.Taints instance)))
                     (mkTaintChanges [] []) (corev1.Taints instance))).
    unfold SharedKey.calculateTaints.
    destruct (SharedKey.daemonsetLoop _ _ _ _); split; congruence.
  - apply KeyPerWorkload_daemonsetLoop_Err_iff.
Qed.

Lemma calculateTaints_error_iff_witness :
  SharedKey.calculateTaints (workersOf failingPods [fluentd; kiam]) runtime0
    (workerNode (Some ∅) None) [fluentd; kiam]
  = Err "error fetching pods: connection refused".
Proof.
  apply (proj2 (proj1 (calculateTaints_error_iff (workersOf failingPods [fluentd; kiam])
                         runtime0 (workerNode (Some ∅) None) [fluentd; kiam]
                         "error fetching pods: connection refused"))).
  exists [], fluentd, [kiam], "connection refused".
  repeat split; auto. intros d' [].
Defined.

(** ** The sweep and the order of the map *)

Lemma SharedKey_sweepLoop_changes (keys : list string) :
  forall st,
    SharedKey.changes (SharedKey.sweepLoop keys st)
    = mkTaintChanges (taintsAdded (SharedKey.changes st))
                     (taintsRemoved (SharedKey.changes st) ++ keys).
Proof.
  unfold SharedKey.sweepLoop.
  induction keys as [|k keys IH]; intros st; simpl.
  - rewrite app_nil_r. destruct (SharedKey.changes st). reflexivity.
  - rewrite IH. simpl. rewrite <- app_assoc. reflexivity.
Qed.

Lemma filter_filter_and {A : Type} (p q : A -> bool) (l : list A) :
  List.filter p (List.filter q l) = List.filter (fun x => q x && p x) l.
Proof.
  induction l as [|x l IH]; simpl; [reflexivity|].
  destruct (q x); simpl; [destruct (p x); [f_equal|]|]; exact IH.
Qed.

Lemma SharedKey_sweepLoop_elems (keys : list string) :
  forall st,
    elems (SharedKey.nodeTaints (SharedKey.sweepLoop keys st))
    = List.filter (fun t => negb (swept keys t)) (elems (SharedKey.nodeTaints st)).
Proof.
  unfold SharedKey.sweepLoop.
  induction keys as [|k keys IH]; intros st; simpl.
  - symmetry. apply filter_all. intros t _. unfold swept. simpl.
    rewrite andb_false_r. reflexivity.
  - rewrite IH. cbn [SharedKey.nodeTaints].
    rewrite SharedKey_elems_removeTaint, filter_filter_and.
    apply List.filter_ext. intros t. unfold swept. simpl.
    destruct (String.eqb (corev1.Key t) taintKey); simpl; [|reflexivity].
    destruct (String.eqb (corev1.Value t) k); reflexivity.
Qed.

Lemma SharedKey_sweepLoop_nilIfEmpty (keys : list string) :
  keys <> [] ->
  forall st,
    SharedKey.nodeTaints (SharedKey.sweepLoop keys st)
    = nilIfEmpty (elems (SharedKey.nodeTaints (SharedKey.sweepLoop keys st))).
Proof.
  induction keys as [|k keys IH]; intros Hne st; [congruence|].
  destruct keys as [|k' keys].
  - unfold SharedKey.sweepLoop. simpl.
    rewrite SharedKey_removeTaint_nilIfEmpty, nilIfEmpty_elems. reflexivity.
  - change (SharedKey.sweepLoop (k :: k' :: keys) st)
      with (SharedKey.sweepLoop (k' :: keys)
              (SharedKey.mkLoopState (SharedKey.taintsToRemove st)
                 (mkTaintChanges (taintsAdded (SharedKey.changes st))
                    (taintsRemoved (SharedKey.changes st) ++ [k]))
                 (SharedKey.removeTaint (SharedKey.nodeTaints st) k))).
    apply IH. discriminate.
Qed.

Lemma swept_Permutation (keys1 keys2 : list string) (t : corev1.Taint) :
  Permutation keys1 keys2 -> swept keys1 t = swept keys2 t.
Proof.
  intros Hp. unfold swept. f_equal.
  induction Hp as [|k l1 l2 _ IH|k1 k2 l|l1 l2 l3 _ IH1 _ IH2]; simpl.
  - reflexivity.
  - rewrite IH. reflexivity.
  - destruct (String.eqb (corev1.Value t) k1), (String.eqb (corev1.Value t) k2);
      reflexivity.
  - congruence.
Qed.

Lemma SharedKey_sweepLoop_Permutation (keys1 keys2 : list string)
    (st : SharedKey.loopState) :
  Permutation keys1 keys2 ->
  SharedKey.nodeTaints (SharedKey.sweepLoop keys1 st)
  = SharedKey.nodeTaints (SharedKey.sweepLoop keys2 st).
Proof.
  intros Hp. destruct keys1 as [|k1 keys1].
  - apply Permutation_nil in Hp. subst. reflexivity.
  - assert (keys2 <> []) as Hne2.
    { intros ->. apply Permutation_sym, Permutation_nil in Hp. discriminate. }
    rewrite (SharedKey_sweepLoop_nilIfEmpty (k1 :: keys1)) by discriminate.
    rewrite (SharedKey_sweepLoop_nilIfEmpty keys2 Hne2).
    rewrite !SharedKey_sweepLoop_elems. f_equal.
    apply List.filter_ext. intros t. rewrite (swept_Permutation _ _ t Hp).
    reflexivity.
Qed.

(** X11. The node a pass of the shared-key handler returns does not
    depend on the order in which the runtime ranges over the
    taintsToRemove map: two runs on the same input return the same node
    and the same added list, and removed lists that are permutations of
    one another. *)
Theorem SharedKey_map_order_irrelevant (h : Handler) (rt1 rt2 : SharedKey.Runtime)
    (instance : corev1.Node) (daemonsets : list Daemonset)
    (nodeCopy : corev1.Node) (changes1 : taintChanges) :
  SharedKey.calculateTaints h rt1 instance daemonsets = Ok (nodeCopy, changes1) ->
  exists changes2,
    SharedKey.calculateTaints h rt2 instance daemonsets = Ok (nodeCopy, changes2)
    /\ taintsAdded changes2 = taintsAdded changes1
    /\ Permutation (taintsRemoved changes2) (taintsRemoved changes1).
Proof.
  intros H. apply SharedKey_calculateTaints_inv in H as (st1 & Hloop & -> & ->).
  unfold SharedKey.calculateTaints. rewrite Hloop.
  assert (Permutation (SharedKey.mapRange rt2 (SharedKey.taintsToRemove st1))
                      (SharedKey.mapRange rt1 (SharedKey.taintsToRemove st1))) as Hp.
  { etransitivity; [apply SharedKey.mapRange_perm|].
    apply Permutation_sym, SharedKey.mapRange_perm. }
  eexists. split; [|split].
  - f_equal. f_equal. f_equal. apply SharedKey_sweepLoop_Permutation. exact Hp.
  - rewrite !SharedKey_sweepLoop_changes. reflexivity.
  - rewrite !SharedKey_sweepLoop_changes. simpl.
    apply Permutation_app_head. exact Hp.
Qed.

Lemma SharedKey_map_order_irrelevant_witness :
  exists changes2,
    SharedKey.calculateTaints (workersOf noPods []) runtime1
      (workerNode (Some ∅)
         (Some [noSchedule fluentdKey ""; noSchedule taintKey fluentdKey;
                noSchedule taintKey "kube-system/kiam"])) []
    = Ok (workerNode (Some ∅)
            (Some [noSchedule fluentdKey ""; noSchedule taintKey "kube-system/kiam"]),
          changes2)
    /\ taintsAdded changes2 = []
    /\ Permutation (taintsRemoved changes2) [fluentdKey; taintKey].
Proof.
  apply (SharedKey_map_order_irrelevant (workersOf noPods []) runtime0 runtime1
           (workerNode (Some ∅)
              (Some [noSchedule fluentdKey ""; noSchedule taintKey fluentdKey;
                     noSchedule taintKey "kube-system/kiam"])) []
           _ (mkTaintChanges [] [fluentdKey; taintKey])).
  vm_compute. reflexivity.
Defined.

(** ** The shared-key handler on a node without owned taints *)

Lemma SharedKey_podReady_negb (pod : corev1.Pod) :
  SharedKey.podReady pod = negb (KeyPerWorkload.podNotReady pod).
Proof.
  unfold SharedKey.podReady, KeyPerWorkload.podNotReady.
  induction (corev1.ContainerStatuses pod) as [|st l IH]; simpl; [reflexivity|].
  rewrite IH. destruct (corev1.Ready st); reflexivity.
Qed.

Lemma SharedKey_daemonsetLoop_turn (h : Handler) (nodeName : string)
    (ds : Daemonset) (rest : list Daemonset) (st : SharedKey.loopState)
    (b : bool) :
  unready h nodeName ds = Some b ->
  SharedKey.daemonsetLoop h nodeName (ds :: rest) st
  = SharedKey.daemonsetLoop h nodeName rest (sharedTurn b ds st).
Proof.
  unfold unready, sharedTurn, valueOf. simpl.
  destruct (getDaemonsetPod h nodeName ds) as [[pod|]|err]; intros Hb;
    inversion Hb; subst b.
  - rewrite SharedKey_podReady_negb.
    destruct (KeyPerWorkload.podNotReady pod); simpl; [|reflexivity].
    destruct (bool_decide _); reflexivity.
  - destruct (bool_decide _); reflexivity.
Qed.

Lemma SharedKey_daemonsetLoop_unresolved (h : Handler) (nodeName : string)
    (ds : Daemonset) (rest : list Daemonset) (st : SharedKey.loopState) :
  unready h nodeName ds = None ->
  exists msg, SharedKey.daemonsetLoop h nodeName (ds :: rest) st = Err msg.
Proof.
  unfold unready. simpl.
  destruct (getDaemonsetPod h nodeName ds) as [[pod|]|err]; try discriminate.
  eauto.
Qed.

Lemma unreadyOnes_In (h : Handler) (nodeName : string)
    (daemonsets : list Daemonset) (d : Daemonset) :
  In d (unreadyOnes h nodeName daemonsets)
  <-> In d daemonsets /\ unready h nodeName d = Some true.
Proof.
  unfold unreadyOnes. rewrite List.filter_In.
  destruct (unready h nodeName d) as [[|]|]; intuition congruence.
Qed.

Lemma collectTaintsToRemove_none (taints : list corev1.Taint) :
  existsb owned taints = false ->
  SharedKey.collectTaintsToRemove taints = ∅.
Proof.
  unfold SharedKey.collectTaintsToRemove. generalize (∅ : gset string).
  induction taints as [|t l IH]; intros acc H; simpl in *; [reflexivity|].
  apply orb_false_iff in H as [Ht Hl]. unfold owned in Ht. rewrite Ht.
  apply IH. exact Hl.
Qed.

Lemma fold_addTaint (values : list string) :
  forall taints,
    fold_left SharedKey.addTaint values taints
    = match values with
      | [] => taints
      | _ => Some (elems taints ++ map (noSchedule taintKey) values)
      end.
Proof.
  induction values as [|v vs IH]; intros taints; [reflexivity|].
  simpl. rewrite IH. destruct vs as [|v' vs]; [reflexivity|].
  unfold SharedKey.addTaint at 1, append. cbn [elems].
  rewrite <- app_assoc. reflexivity.
Qed.

Lemma SharedKey_daemonsetLoop_fresh (h : Handler) (nodeName : string)
    (daemonsets : list Daemonset) :
  (forall d, In d daemonsets -> unready h nodeName d <> None) ->
  forall added removed taints,
    SharedKey.daemonsetLoop h nodeName daemonsets
      (SharedKey.mkLoopState ∅ (mkTaintChanges added removed) taints)
    = Ok (SharedKey.mkLoopState ∅
            (mkTaintChanges
               (added ++ map valueOf (unreadyOnes h nodeName daemonsets)) removed)
            (fold_left SharedKey.addTaint
               (map valueOf (unreadyOnes h nodeName daemonsets)) taints)).
Proof.
  induction daemonsets as [|d rest IH]; intros Hres added removed taints.
  - simpl. rewrite app_nil_r. reflexivity.
  - destruct (unready h nodeName d) as [b|] eqn:Hb;
      [|destruct (Hres d (or_introl eq_refl) Hb)].
    rewrite (SharedKey_daemonsetLoop_turn _ _ _ _ _ _ Hb).
    assert (forall d', In d' rest -> unready h nodeName d' <> None) as Hrest.
    { intros d' Hd'. apply Hres. right. exact Hd'. }
    unfold unreadyOnes. cbn [List.filter]. rewrite Hb.
    fold (unreadyOnes h nodeName rest).
    destruct b; unfold sharedTurn; cbn [SharedKey.taintsToRemove].
    + rewrite bool_decide_eq_false_2 by set_solver.
      cbn [SharedKey.changes SharedKey.nodeTaints taintsAdded taintsRemoved].
      rewrite (IH Hrest). cbn [map fold_left]. rewrite <- app_assoc. reflexivity.
    + apply (IH Hrest).
Qed.

(** X12. On a node that carries no owned taint, a pass of the
    shared-key handler whose lookups succeed removes nothing and appends
    one NoSchedule taint, with the shared key and the value
    namespace/name, for each daemonset of the list whose pod is missing
    or unready, in the order of the list; the added list holds those
    values in the same order, and with no such daemonset the taint list
    comes back as it was. *)
Theorem SharedKey_pass_on_untainted_node (h : Handler) (rt : SharedKey.Runtime)
    (instance : corev1.Node) (daemonsets : list Daemonset) :
  existsb owned (elems (corev1.Taints instance)) = false ->
  (forall d, In d daemonsets -> unready h (corev1.Name instance) d <> None) ->
  SharedKey.calculateTaints h rt instance daemonsets
  = Ok (KeyPerWorkload.withTaints instance
          (match unreadyOnes h (corev1.Name instance) daemonsets with
           | [] => corev1.Taints instance
           | us => Some (elems (corev1.Taints instance)
                         ++ map (fun d => noSchedule taintKey (valueOf d)) us)
           end),
        mkTaintChanges (map valueOf (unreadyOnes h (corev1.Name instance) daemonsets)) []).
Proof.
  intros Hfree Hres. unfold SharedKey.calculateTaints.
  rewrite (collectTaintsToRemove_none _ Hfree).
  rewrite (SharedKey_daemonsetLoop_fresh _ _ _ Hres).
  cbn [SharedKey.taintsToRemove].
  rewrite (mapRange_short rt ∅ []) by (try apply elements_empty; simpl; lia).
  cbn [SharedKey.sweepLoop fold_left SharedKey.nodeTaints SharedKey.changes app].
  rewrite fold_addTaint. unfold KeyPerWorkload.withTaints.
  destruct (unreadyOnes h (corev1.Name instance) daemonsets) as [|u us];
    [reflexivity|].
  rewrite map_map. reflexivity.
Qed.

Lemma SharedKey_pass_on_untainted_node_witness :
  SharedKey.calculateTaints (workersOf noPods [fluentd; kiam]) runtime0
    (workerNode None (Some [dedicatedTaint])) [fluentd; kiam]
  = Ok (workerNode None
          (Some [dedicatedTaint; noSchedule taintKey "kube-system/fluentd";
                 noSchedule taintKey "kube-system/kiam"]),
        mkTaintChanges ["kube-system/fluentd"; "kube-system/kiam"] []).
Proof.
  apply (SharedKey_pass_on_untainted_node (workersOf noPods [fluentd; kiam]) runtime0
           (workerNode None (Some [dedicatedTaint])) [fluentd; kiam]).
  - reflexivity.
  - intros d _. discriminate.
Defined.

(** ** Taints of daemonsets that are not in the list *)

Lemma KeyPerWorkload_daemonsetLoop_filter (q : corev1.Taint -> bool) (h : Handler)
    (nodeName : string) (daemonsets : list Daemonset) :
  (forall t d, q t = true -> In d daemonsets ->
     String.eqb (corev1.Key t) (KeyPerWorkload.taintOf d) = false) ->
  forall n c n' c',
    KeyPerWorkload.daemonsetLoop h nodeName daemonsets n c = Ok (n', c') ->
    List.filter q (elems (corev1.Taints n')) = List.filter q (elems (corev1.Taints n)).
Proof.
  induction daemonsets as [|ds rest IH]; intros Hq n c n' c' H.
  - simpl in H. assert (n' = n) as -> by congruence. reflexivity.
  - take_turn H b Hb.
    rewrite (IH (fun t d Ht Hd => Hq t d Ht (or_intror Hd)) _ _ _ _ H).
    assert (forall t, q t = true ->
              String.eqb (corev1.Key t) (KeyPerWorkload.taintOf ds) = false) as Hds.
    { intros t Ht. apply (Hq t ds Ht). left. reflexivity. }
    unfold turnNode.
    destruct b; destruct (KeyPerWorkload.taintPresent n _); simpl; try reflexivity.
    + unfold KeyPerWorkload.addTaint, append. cbn [elems].
      rewrite List.filter_app. cbn [List.filter].
      destruct (q _) eqn:Hnew; [|apply app_nil_r].
      apply Hds in Hnew. cbn [corev1.Key] in Hnew.
      rewrite String.eqb_refl in Hnew. discriminate Hnew.
    + rewrite KeyPerWorkload_elems_removeTaint.
      apply filter_filter_weaker. intros t Ht. rewrite (Hds t Ht). reflexivity.
Qed.

(** X13. A pass of the key-per-daemonset handler keeps, in place, every
    taint whose key is not the key of a daemonset of the list it is run
    with. An owned taint left by a daemonset that is no longer
    configured therefore stays on the node: this generation has no
    sweep. *)
Theorem KeyPerWorkload_keeps_unlisted_keys (h : Handler) (instance : corev1.Node)
    (daemonsets : list Daemonset) (nodeCopy : corev1.Node)
    (changes : taintChanges) :
  KeyPerWorkload.calculateTaints h instance daemonsets = Ok (nodeCopy, changes) ->
  List.filter
    (fun t => negb (existsb (String.eqb (corev1.Key t))
                            (map KeyPerWorkload.taintOf daemonsets)))
    (elems (corev1.Taints nodeCopy))
  = List.filter
      (fun t => negb (existsb (String.eqb (corev1.Key t))
                              (map KeyPerWorkload.taintOf daemonsets)))
      (elems (corev1.Taints instance)).
Proof.
  apply KeyPerWorkload_daemonsetLoop_filter.
  intros t d Ht Hd. apply negb_true_iff in Ht.
  destruct (String.eqb (corev1.Key t) (KeyPerWorkload.taintOf d)) eqn:Heq;
    [|reflexivity].
  assert (existsb (String.eqb (corev1.Key t))
                  (map KeyPerWorkload.taintOf daemonsets) = true) as Hex.
  { apply existsb_exists. exists (KeyPerWorkload.taintOf d).
    split; [apply in_map; exact Hd|exact Heq]. }
  congruence.
Qed.

Lemma KeyPerWorkload_keeps_unlisted_keys_witness :
  List.filter
    (fun t => negb (existsb (String.eqb (corev1.Key t))
                            (map KeyPerWorkload.taintOf [fluentd])))
    [noSchedule "nidhogg.uswitch.com/kube-system.old" ""]
  = [noSchedule "nidhogg.uswitch.com/kube-system.old" ""].
Proof.
  apply (KeyPerWorkload_keeps_unlisted_keys (workersOf readyPods [fluentd])
           (workerNode (Some ∅)
              (Some [noSchedule "nidhogg.uswitch.com/kube-system.old" "";
                     noSchedule fluentdKey ""]))
           [fluentd]
           (workerNode (Some ∅) (Some [noSchedule "nidhogg.uswitch.com/kube-system.old" ""]))
           (mkTaintChanges [] [fluentdKey])).
  vm_compute. reflexivity.
Defined.

(** ** Where the taints of the returned node come from *)

Lemma SharedKey_daemonsetLoop_origin (h : Handler) (nodeName : string)
    (daemonsets : list Daemonset) :
  forall st st',
    SharedKey.daemonsetLoop h nodeName daemonsets st = Ok st' ->
    (forall t, In t (elems (SharedKey.nodeTaints st')) ->
       In t (elems (SharedKey.nodeTaints st))
       \/ exists d, In d (unreadyOnes h nodeName daemonsets)
                    /\ t = noSchedule taintKey (valueOf d))
    /\
    (forall v, In v (taintsAdded (SharedKey.changes st')) ->
       In v (taintsAdded (SharedKey.changes st))
       \/ exists d, In d (unreadyOnes h nodeName daemonsets) /\ v = valueOf d).
Proof.
  induction daemonsets as [|ds rest IH]; intros st st' H.
  { simpl in H. assert (st' = st) as -> by congruence. auto. }
  destruct (unready h nodeName ds) as [b|] eqn:Hb.
  2:{ destruct (SharedKey_daemonsetLoop_unresolved h nodeName ds rest st Hb) as [m Hm].
      congruence. }
  rewrite (SharedKey_daemonsetLoop_turn _ _ _ _ _ _ Hb) in H.
  destruct (IH _ _ H) as [IHt IHa].
  assert (forall d, In d (unreadyOnes h nodeName rest) ->
                    In d (unreadyOnes h nodeName (ds :: rest))) as Hlift.
  { intros d Hd. apply unreadyOnes_In in Hd as [Hd Hu].
    apply unreadyOnes_In. split; [right; exact Hd|exact Hu]. }
  assert (b = true -> In ds (unreadyOnes h nodeName (ds :: rest))) as Hhere.
  { intros ->. apply unreadyOnes_In. split; [left; reflexivity|exact Hb]. }
  unfold sharedTurn in IHt, IHa.
  split.
  - intros t Ht. destruct (IHt t Ht) as [Hin|(d & Hd & ->)]; [|eauto].
    destruct b; [|auto]. destruct (bool_decide _); [auto|].
    cbn [SharedKey.nodeTaints] in Hin. unfold SharedKey.addTaint, append in Hin.
    cbn [elems] in Hin. apply in_app_or in Hin as [Hin|[<-|[]]]; [auto|].
    right. exists ds. auto.
  - intros v Hv. destruct (IHa v Hv) as [Hin|(d & Hd & ->)]; [|eauto].
    destruct b; [|auto]. destruct (bool_decide _); [auto|].
    cbn [SharedKey.changes taintsAdded] in Hin.
    apply in_app_or in Hin as [Hin|[<-|[]]]; [auto|].
    right. exists ds. auto.
Qed.

(** X14. The shared-key handler taints a node only for what is unready:
    every taint of the node it returns is a taint of the input node or
    the NoSchedule taint, with the shared key and the value
    namespace/name, of a daemonset of the list whose pod is missing or
    unready, and every value of the added list is that of such a
    daemonset. *)
Theorem SharedKey_taints_only_for_unready (h : Handler) (rt : SharedKey.Runtime)
    (instance : corev1.Node) (daemonsets : list Daemonset)
    (nodeCopy : corev1.Node) (changes : taintChanges) :
  SharedKey.calculateTaints h rt instance daemonsets = Ok (nodeCopy, changes) ->
  (forall t, In t (elems (corev1.Taints nodeCopy)) ->
     In t (elems (corev1.Taints instance))
     \/ exists d, In d daemonsets
                  /\ unready h (corev1.Name instance) d = Some true
                  /\ t = noSchedule taintKey (valueOf d))
  /\
  (forall v, In v (taintsAdded changes) ->
     exists d, In d daemonsets
               /\ unready h (corev1.Name instance) d = Some true
               /\ v = valueOf d).
Proof.
  intros H. apply SharedKey_calculateTaints_inv in H as (st1 & Hloop & -> & ->).
  destruct (SharedKey_daemonsetLoop_origin _ _ _ _ _ Hloop) as [Ht Ha].
  cbn [SharedKey.nodeTaints SharedKey.changes taintsAdded] in Ht, Ha.
  split.
  - intros t Hin. cbn [corev1.Taints] in Hin.
    rewrite SharedKey_sweepLoop_elems in Hin. apply List.filter_In in Hin as [Hin _].
    destruct (Ht t Hin) as [?|(d & Hd & ->)]; [auto|].
    apply unreadyOnes_In in Hd as [Hd Hu]. right. exists d. auto.
  - intros v Hin. rewrite SharedKey_sweepLoop_taintsAdded in Hin.
    destruct (Ha v Hin) as [[]|(d & Hd & ->)].
    apply unreadyOnes_In in Hd as [Hd Hu]. exists d. auto.
Qed.

Lemma SharedKey_taints_only_for_unready_witness :
  exists d, In d [fluentd]
            /\ unready (workersOf noPods [fluentd]) "node-1" d = Some true
            /\ "kube-system/fluentd" = valueOf d.
Proof.
  apply (proj2 (SharedKey_taints_only_for_unready (workersOf noPods [fluentd]) runtime0
                  (workerNode (Some ∅) None) [fluentd]
                  (workerNode (Some ∅) (Some [noSchedule taintKey "kube-system/fluentd"]))
                  (mkTaintChanges ["kube-system/fluentd"] []) eq_refl)
               "kube-system/fluentd").
  left. reflexivity.
Defined.

Lemma KeyPerWorkload_daemonsetLoop_origin (h : Handler) (nodeName : string)
    (daemonsets : list Daemonset) :
  forall n c n' c',
    KeyPerWorkload.daemonsetLoop h nodeName daemonsets n c = Ok (n', c') ->
    (forall t, In t (elems (corev1.Taints n')) ->
       In t (elems (corev1.Taints n))
       \/ exists d, In d daemonsets /\ unready h nodeName d = Some true
                    /\ t = noSchedule (KeyPerWorkload.taintOf d) "")
    /\
    (forall k, In k (taintsAdded c') ->
       In k (taintsAdded c)
       \/ exists d, In d daemonsets /\ unready h nodeName d = Some true
                    /\ k = KeyPerWorkload.taintOf d)
    /\
    (forall k, In k (taintsRemoved c') ->
       In k (taintsRemoved c)
       \/ exists d, In d daemonsets /\ unready h nodeName d = Some false
                    /\ k = KeyPerWorkload.taintOf d).
Proof.
  induction daemonsets as [|ds rest IH]; intros n c n' c' H.
  { simpl in H. assert (n' = n /\ c' = c) as [-> ->] by (split; congruence). auto. }
  take_turn H b Hb.
  destruct (IH _ _ _ _ H) as (IHt & IHa & IHr).
  unfold turnNode in IHt. unfold turnChanges in IHa, IHr.
  split; [|split].
  - intros t Ht. destruct (IHt t Ht) as [Hin|(d & Hd & Hu & ->)].
    2:{ right. exists d. split; [right; exact Hd|auto]. }
    destruct b; destruct (KeyPerWorkload.taintPresent n _); simpl in Hin; auto.
    + unfold KeyPerWorkload.addTaint, append in Hin. cbn [elems] in Hin.
      apply in_app_or in Hin as [Hin|[<-|[]]]; [auto|].
      right. exists ds. split; [left; reflexivity|auto].
    + rewrite KeyPerWorkload_elems_removeTaint in Hin.
      apply List.filter_In in Hin as [Hin _]. auto.
  - intros k Hk. destruct (IHa k Hk) as [Hin|(d & Hd & Hu & ->)].
    2:{ right. exists d. split; [right; exact Hd|auto]. }
    destruct b; destruct (KeyPerWorkload.taintPresent n _); simpl in Hin; auto.
    apply in_app_or in Hin as [Hin|[<-|[]]]; [auto|].
    right. exists ds. split; [left; reflexivity|auto].
  - intros k Hk. destruct (IHr k Hk) as [Hin|(d & Hd & Hu & ->)].
    2:{ right. exists d. split; [right; exact Hd|auto]. }
    destruct b; destruct (KeyPerWorkload.taintPresent n _); simpl in Hin; auto.
    apply in_app_or in Hin as [Hin|[<-|[]]]; [auto|].
    right. exists ds. split; [left; reflexivity|auto].
Qed.

(** X15. The key-per-daemonset handler taints a node only for what is
    unready and clears taints only for what is ready: every taint of the
    node it returns is a taint of the input node or the NoSchedule taint
    of a daemonset of the list whose pod is missing or unready; every
    key of the added list is that of such a daemonset, and every key of
    the removed list that of a daemonset whose pod is ready. *)
Theorem KeyPerWorkload_taints_only_for_unready (h : Handler)
    (instance : corev1.Node) (daemonsets : list Daemonset)
    (nodeCopy : corev1.Node) (changes : taintChanges) :
  KeyPerWorkload.calculateTaints h instance daemonsets = Ok (nodeCopy, changes) ->
  (forall t, In t (elems (corev1.Taints nodeCopy)) ->
     In t (elems (corev1.Taints instance))
     \/ exists d, In d daemonsets
                  /\ unready h (corev1.Name instance) d = Some true
                  /\ t = noSchedule (KeyPerWorkload.taintOf d) "")
  /\
  (forall k, In k (taintsAdded changes) ->
     exists d, In d daemonsets
               /\ unready h (corev1.Name instance) d = Some true
               /\ k = KeyPerWorkload.taintOf d)
  /\
  (forall k, In k (taintsRemoved changes) ->
     exists d, In d daemonsets
               /\ unready h (corev1.Name instance) d = Some false
               /\ k = KeyPerWorkload.taintOf d).
Proof.
  unfold KeyPerWorkload.calculateTaints. intros H.
  destruct (KeyPerWorkload_daemonsetLoop_origin _ _ _ _ _ _ _ H) as (Ht & Ha & Hr).
  split; [exact Ht|]. split.
  - intros k Hk. destruct (Ha k Hk) as [[]|?]. assumption.
  - intros k Hk. destruct (Hr k Hk) as [[]|?]. assumption.
Qed.

Lemma KeyPerWorkload_taints_only_for_unready_witness :
  exists d, In d [fluentd]
            /\ unready (workersOf readyPods [fluentd]) "node-1" d = Some false
            /\ fluentdKey = KeyPerWorkload.taintOf d.
Proof.
  apply (proj2 (proj2 (KeyPerWorkload_taints_only_for_unready
                         (workersOf readyPods [fluentd])
                         (workerNode (Some ∅) (Some [noSchedule fluentdKey ""]))
                         [fluentd] (workerNode (Some ∅) None)
                         (mkTaintChanges [] [fluentdKey]) eq_refl)) fluentdKey).
  left. reflexivity.
Defined.

(** ** The key-per-daemonset handler: taints and change record *)

(** X16. After a pass of the key-per-daemonset handler over a
    consistent list, the taint of a daemonset of the list is on the
    returned node exactly when the pod of the daemonset on the node is
    missing or has a container that is not ready. *)
Theorem KeyPerWorkload_taint_iff_unready (h : Handler) (instance : corev1.Node)
    (daemonsets : list Daemonset) (nodeCopy : corev1.Node)
    (changes : taintChanges) (d : Daemonset) :
  consistent h (corev1.Name instance) daemonsets ->
  KeyPerWorkload.calculateTaints h instance daemonsets = Ok (nodeCopy, changes) ->
  In d daemonsets ->
  (KeyPerWorkload.taintPresent nodeCopy (KeyPerWorkload.taintOf d) = true
   <-> unready h (corev1.Name instance) d = Some true).
Proof.
  intros Hcons H Hin.
  rewrite (KeyPerWorkload_calculateTaints_settles _ _ _ _ _ _ Hcons H Hin).
  split; congruence.
Qed.

Lemma KeyPerWorkload_taint_iff_unready_witness :
  KeyPerWorkload.taintPresent
    (workerNode (Some ∅) (Some [noSchedule fluentdKey ""]))
    (KeyPerWorkload.taintOf fluentd) = true
  <-> unready (workersOf noPods [fluentd]) "node-1" fluentd = Some true.
Proof.
  apply (KeyPerWorkload_taint_iff_unready (workersOf noPods [fluentd])
           (workerNode (Some ∅) None) [fluentd]
           (workerNode (Some ∅) (Some [noSchedule fluentdKey ""]))
           (mkTaintChanges [fluentdKey] []) fluentd).
  - apply consistent_NoDup. repeat constructor. set_solver.
  - vm_compute. reflexivity.
  - left. reflexivity.
Defined.

Lemma KeyPerWorkload_daemonsetLoop_grows (h : Handler) (nodeName k : string)
    (daemonsets : list Daemonset) :
  forall n c n' c',
    KeyPerWorkload.daemonsetLoop h nodeName daemonsets n c = Ok (n', c') ->
    (In k (taintsAdded c) -> In k (taintsAdded c'))
    /\ (In k (taintsRemoved c) -> In k (taintsRemoved c')).
Proof.
  induction daemonsets as [|ds rest IH]; intros n c n' c' H.
  { simpl in H. assert (c' = c) as -> by congruence. auto. }
  take_turn H b Hb. destruct (IH _ _ _ _ H) as [IHa IHr].
  unfold turnChanges in IHa, IHr.
  destruct b; destruct (KeyPerWorkload.taintPresent n _); simpl in IHa, IHr;
    split; intros Hin; auto; (apply IHa || apply IHr); apply in_or_app; auto.
Qed.

Lemma KeyPerWorkload_daemonsetLoop_recorded (h : Handler) (nodeName k : string)
    (daemonsets : list Daemonset) :
  forall n c n' c',
    KeyPerWorkload.daemonsetLoop h nodeName daemonsets n c = Ok (n', c') ->
    (KeyPerWorkload.taintPresent n k = false ->
     KeyPerWorkload.taintPresent n' k = true -> In k (taintsAdded c'))
    /\
    (KeyPerWorkload.taintPresent n k = true ->
     KeyPerWorkload.taintPresent n' k = false -> In k (taintsRemoved c')).
Proof.
  induction daemonsets as [|ds rest IH]; intros n c n' c' H.
  { simpl in H. assert (n' = n) as -> by congruence. split; congruence. }
  take_turn H b Hb. destruct (IH _ _ _ _ H) as [IHa IHr].
  destruct (KeyPerWorkload_daemonsetLoop_grows h nodeName k _ _ _ _ _ H) as [Ga Gr].
  destruct (string_dec (KeyPerWorkload.taintOf ds) k) as [Heq|Hne].
  - subst k. rewrite turnNode_present in IHa, IHr.
    unfold turnChanges in Ga, Gr.
    split; intros Hn Hn'.
    + destruct b; [|auto]. rewrite Hn in Ga. simpl in Ga.
      apply Ga, in_or_app. right. left. reflexivity.
    + destruct b; [auto|]. rewrite Hn in Gr. simpl in Gr.
      apply Gr, in_or_app. right. left. reflexivity.
  - rewrite (turnNode_other _ _ _ _ Hne) in IHa, IHr. auto.
Qed.

(** X17. The change record of the key-per-daemonset handler is exact
    for a consistent list: a key is in the added list exactly when it
    is absent from the input node and present on the returned one, and
    in the removed list exactly when it is present on the input node
    and absent from the returned one. *)
Theorem KeyPerWorkload_record_exact (h : Handler) (instance : corev1.Node)
    (daemonsets : list Daemonset) (nodeCopy : corev1.Node)
    (changes : taintChanges) (k : string) :
  consistent h (corev1.Name instance) daemonsets ->
  KeyPerWorkload.calculateTaints h instance daemonsets = Ok (nodeCopy, changes) ->
  (In k (taintsAdded changes) <->
   KeyPerWorkload.taintPresent instance k = false
   /\ KeyPerWorkload.taintPresent nodeCopy k = true)
  /\
  (In k (taintsRemoved changes) <->
   KeyPerWorkload.taintPresent instance k = true
   /\ KeyPerWorkload.taintPresent nodeCopy k = false).
Proof.
  intros Hcons H.
  destruct (KeyPerWorkload_calculateTaints_record _ _ _ _ _ k Hcons H) as [Ha Hr].
  unfold KeyPerWorkload.calculateTaints in H.
  destruct (KeyPerWorkload_daemonsetLoop_recorded _ _ k _ _ _ _ _ H) as [Ca Cr].
  split; split; auto; intros [? ?]; auto.
Qed.

Lemma KeyPerWorkload_record_exact_witness :
  (In fluentdKey [fluentdKey] <->
   KeyPerWorkload.taintPresent (workerNode (Some ∅) None) fluentdKey = false
   /\ KeyPerWorkload.taintPresent
        (workerNode (Some ∅) (Some [noSchedule fluentdKey ""])) fluentdKey = true)
  /\
  (In fluentdKey [] <->
   KeyPerWorkload.taintPresent (workerNode (Some ∅) None) fluentdKey = true
   /\ KeyPerWorkload.taintPresent
        (workerNode (Some ∅) (Some [noSchedule fluentdKey ""])) fluentdKey = false).
Proof.
  apply (KeyPerWorkload_record_exact (workersOf noPods [fluentd])
           (workerNode (Some ∅) None) [fluentd]
           (workerNode (Some ∅) (Some [noSchedule fluentdKey ""]))
           (mkTaintChanges [fluentdKey] []) fluentdKey).
  - apply consistent_NoDup. repeat constructor. set_solver.
  - vm_compute. reflexivity.
Defined.

(** ** What HandleNode does to the cluster *)



Lemma selectedDaemonsets_Labels (h : Handler) (n1 n2 : corev1.Node) :
  corev1.Labels n1 = corev1.Labels n2 ->
  selectedDaemonsets h n1 = selectedDaemonsets h n2.
Proof. unfold selectedDaemonsets. intros ->. reflexivity. Qed.

(** X19. HandleNode of the key-per-daemonset handler, called on the
    node that a pass over a consistent policy returned, writes nothing
    and records nothing: it returns without error and leaves the
    cluster as it was, whatever the cluster is. *)
Theorem KeyPerWorkload_HandleNode_settled (h : Handler) (instance : corev1.Node)
    (nodeCopy : corev1.Node) (changes : taintChanges) (cl : Cluster) :
  consistent h (corev1.Name instance) (selectedDaemonsets h instance) ->
  KeyPerWorkload.calculateTaints h instance (selectedDaemonsets h instance)
    = Ok (nodeCopy, changes) ->
  KeyPerWorkload.HandleNode h nodeCopy cl = (cl, Returned None).
Proof.
  intros Hcons H. unfold KeyPerWorkload.HandleNode.
  assert (corev1.Labels nodeCopy = corev1.Labels instance) as Hlab.
  { rewrite (KeyPerWorkload_daemonsetLoop_withTaints _ _ _ _ _ _ _ H). reflexivity. }
  rewrite (selectedDaemonsets_Labels h _ _ Hlab).
  rewrite (KeyPerWorkload_calculateTaints_idempotent _ _ _ _ _ Hcons H).
  rewrite bool_decide_eq_true_2 by reflexivity. reflexivity.
Qed.

Lemma KeyPerWorkload_HandleNode_settled_witness :
  KeyPerWorkload.HandleNode (workersOf noPods [fluentd])
    (workerNode (Some ∅) (Some [noSchedule fluentdKey ""])) emptyCluster
  = (emptyCluster, Returned None).
Proof.
  apply (KeyPerWorkload_HandleNode_settled (workersOf noPods [fluentd])
           (workerNode (Some ∅) None) _ (mkTaintChanges [fluentdKey] [])).
  - apply consistent_NoDup. repeat constructor. set_solver.
  - vm_compute. reflexivity.
Defined.



